(** * Verification of [src/modules/task_scheduler.py]

    A shallow embedding of the [TaskScheduler] class together with the parts
    of its two dependencies that its methods reach: a few Python builtins
    ([int], [datetime], [time.sleep], [threading.Thread]) and the
    [Scheduler] and [Job] classes of the third-party [schedule] package
    (release line 1.x up to 1.2.1, whose [Job._schedule_next_run] adds the
    period to the current time).

    Conventions.
    - A Python [str] is a Rocq [string]; a character stands for the code
      point of the same number.  Only ASCII digits and ASCII white space are
      recognised by the parsers below.
    - A naive [datetime] is the number of microseconds since
      0001-01-01T00:00:00, a [timedelta] a number of microseconds; both are
      integers and their range checks are written out.
    - Methods take the state and return the new state, with a [result] for
      what the call returns or raises.
    - The clock moves in [time.sleep] only: all that one call does happens
      at one time.
    - A loop thread runs one turn of its [while] statement at a time
      ([thread_step]); the turns of the threads and the calls of the host
      interleave in any order.
    - Calls to [logger] only write to the logging subsystem; they are not
      part of the state.

    The scheduler methods of [PersonalAssistant] ([src/assistant.py]) act
    on the scheduler of the process, the one the module-level
    [get_scheduler] hands out; they are embedded as functions of the same
    state.  The command-line front end ([src/main.py]) only reads input and
    prints, and is not part of the development. *)

From stdpp Require Import base gmap sets list strings.
From Stdlib Require Import ZArith Ascii String Lia.

Local Open Scope string_scope.
Local Open Scope list_scope.
Local Open Scope Z_scope.

(** ** Exceptions *)

Inductive exc : Type :=
  | ValueError
  | TypeError
  | RuntimeError
  | OverflowError
  | AssertionError
  | ScheduleValueError      (* schedule.ScheduleValueError(ScheduleError) *)
  | IntervalError           (* schedule.IntervalError(ScheduleValueError) *)
  | OtherException          (* any other class derived from Exception *)
  | KeyboardInterrupt
  | SystemExit.

(** [isinstance(e, Exception)]: what [except Exception] catches. *)
Definition is_Exception (e : exc) : bool :=
  match e with
  | KeyboardInterrupt | SystemExit => false
  | _ => true
  end.

(** [isinstance(e, ValueError)]: what [except ValueError] catches.  The
    exceptions of [schedule] derive from [Exception] directly. *)
Definition is_ValueError (e : exc) : bool :=
  match e with
  | ValueError => true
  | _ => false
  end.

Inductive result (A : Type) : Type :=
  | Ok (a : A)
  | Raise (e : exc).
Arguments Ok {A} a.
Arguments Raise {A} e.

#[global] Instance result_ret : MRet result := fun A a => Ok a.
#[global] Instance result_bind : MBind result := fun A B k r =>
  match r with
  | Ok a => k a
  | Raise e => Raise e
  end.

(** ** Python builtins *)

Module Py.

Definition ord (c : ascii) : nat := nat_of_ascii c.

(** [Py_ISSPACE]: tab, line feed, vertical tab, form feed, carriage return
    and space. *)
Definition isspace (c : ascii) : bool :=
  let n := ord c in
  ((9 <=? n)%nat && (n <=? 13)%nat) || (n =? 32)%nat.

Definition isdigit (c : ascii) : bool :=
  let n := ord c in (48 <=? n)%nat && (n <=? 57)%nat.

Definition digit_value (c : ascii) : Z := Z.of_nat (ord c) - 48.

Fixpoint lstrip (l : list ascii) : list ascii :=
  match l with
  | c :: l' => if isspace c then lstrip l' else l
  | [] => []
  end.

(** The digits of a decimal literal, underscores removed.  An underscore is
    legal only between two digits. *)
Fixpoint digits_of (prev_underscore : bool) (l : list ascii) : option (list Z) :=
  match l with
  | [] => if prev_underscore then None else Some []
  | c :: l' =>
      if isdigit c then cons (digit_value c) <$> digits_of false l'
      else if (ord c =? 95)%nat then
        if prev_underscore then None else digits_of true l'
      else None
  end.

Definition decimal (ds : list Z) : Z :=
  fold_left (fun acc d => 10 * acc + d) ds 0.

(** [sys.get_int_max_str_digits()], the default of the interpreters
    (3.11 and later) the package supports. *)
Definition int_max_str_digits : nat := 4300.

Definition unsigned_literal (l : list ascii) : option Z :=
  match l with
  | [] => None
  | c :: _ =>
      if isdigit c then
        ds ← digits_of false l;
        if (int_max_str_digits <? List.length ds)%nat then None
        else Some (decimal ds)
      else None
  end.

(** [int(s)] for a [str]: [Some n], or [None] where Python raises
    [ValueError].  White space around the literal is skipped; one sign may
    precede the digits. *)
Definition int (s : string) : option Z :=
  let body := rev (lstrip (rev (lstrip (list_ascii_of_string s)))) in
  match body with
  | c :: rest =>
      if (ord c =? 43)%nat then unsigned_literal rest
      else if (ord c =? 45)%nat then Z.opp <$> unsigned_literal rest
      else unsigned_literal body
  | [] => None
  end.

End Py.

(** ** [datetime] *)

Module datetime.

Definition us_per_second : Z := 1000000.
Definition us_per_minute : Z := 60 * us_per_second.
Definition us_per_hour : Z := 60 * us_per_minute.
Definition us_per_day : Z := 24 * us_per_hour.

(** [datetime.max] is 9999-12-31T23:59:59.999999, the last microsecond of
    day 3652059 counted from 0001-01-01. *)
Definition max_days : Z := 3652059.

Definition in_range (t : Z) : bool :=
  (0 <=? t) && (t <? max_days * us_per_day).

(** [timedelta.max] is 999999999 days, 23:59:59.999999. *)
Definition timedelta_max_days : Z := 999999999.

Definition timedelta (us : Z) : result Z :=
  let d := us / us_per_day in
  if (- timedelta_max_days <=? d) && (d <=? timedelta_max_days)
  then Ok us else Raise OverflowError.

(** [dt + delta] and [dt - delta]. *)
Definition add (t delta : Z) : result Z :=
  if in_range (t + delta) then Ok (t + delta) else Raise OverflowError.

Definition sub (t delta : Z) : result Z := add t (- delta).

(** [datetime.time(hour, minute, second)], microsecond 0. *)
Record time : Type := mkTime { hour : Z; minute : Z; second : Z }.

Definition time_us (tm : time) : Z :=
  hour tm * us_per_hour + minute tm * us_per_minute + second tm * us_per_second.

(** [dt.time()], [dt.hour], [dt.minute], [dt.second]. *)
Definition time_of (t : Z) : Z := t mod us_per_day.
Definition hour_of (t : Z) : Z := time_of t / us_per_hour.
Definition minute_of (t : Z) : Z := (t mod us_per_hour) / us_per_minute.
Definition second_of (t : Z) : Z := (t mod us_per_minute) / us_per_second.

(** [dt.replace(hour=h, minute=m, second=s, microsecond=0)]; a field given
    as [None] keeps its value. *)
Definition replace (t : Z) (h m : option Z) (s : Z) : Z :=
  (t - time_of t)
  + default (hour_of t) h * us_per_hour
  + default (minute_of t) m * us_per_minute
  + s * us_per_second.

End datetime.

(** ** Callables *)

(** What a call of a job function does: it returns ([Returns true] when the
    value is [schedule.CancelJob]) or raises. *)
Inductive outcome : Type :=
  | Returns (cancel_job : bool)
  | Raises (e : exc).

(** A zero-argument callable, as a function of the time of the call.  The
    callables of this model do not call back into the scheduler. *)
Definition callable : Type := Z -> outcome.

(** ** Values passed to and returned by the methods *)

Inductive pyval : Type :=
  | PNone
  | PInt (n : Z)
  | PStr (s : string)
  | PCallable (f : callable)
  | PSet (elems : gset string).

(** [bool(v)] *)
Definition truthy (v : pyval) : bool :=
  match v with
  | PNone => false
  | PInt n => negb (n =? 0)
  | PStr s => negb (String.eqb s "")
  | PCallable _ => true
  | PSet e => negb (bool_decide (e = ∅))
  end.

Definition isinstance_str (v : pyval) : bool :=
  match v with PStr _ => true | _ => false end.

Definition is_callable (v : pyval) : bool :=
  match v with PCallable _ => true | _ => false end.

(** [v in [s1, s2, ...]] for a list of [str]. *)
Definition in_str_list (v : pyval) (l : list string) : bool :=
  match v with
  | PStr s => existsb (String.eqb s) l
  | _ => false
  end.

(** [v == s] for a [str] literal [s]. *)
Definition eq_str (v : pyval) (s : string) : bool :=
  match v with
  | PStr s' => String.eqb s' s
  | _ => false
  end.

(** ** The [schedule] package: [Job] *)

Inductive time_unit : Type := Seconds | Minutes | Hours | Days.

#[global] Instance time_unit_eq_dec : EqDecision time_unit.
Proof. solve_decision. Defined.

Definition unit_us (u : time_unit) : Z :=
  match u with
  | Seconds => datetime.us_per_second
  | Minutes => datetime.us_per_minute
  | Hours => datetime.us_per_hour
  | Days => datetime.us_per_day
  end.

Module Job.

(** The attributes of [schedule.Job] that this program sets or reads.
    [latest], [start_day], [cancel_after] and [at_time_zone] stay [None]
    throughout and are left out, with the branches they guard.  [jid] stands
    for the identity of the object. *)
Record t : Type := mkJob {
  jid : nat;
  interval : Z;
  unit_ : option time_unit;
  at_time : option datetime.time;
  job_func : option callable;
  last_run : option Z;
  next_run : option Z;
  tags : gset string;
}.

Definition set_unit (u : time_unit) (j : t) : t :=
  mkJob (jid j) (interval j) (Some u) (at_time j) (job_func j)
        (last_run j) (next_run j) (tags j).
Definition set_at_time (tm : datetime.time) (j : t) : t :=
  mkJob (jid j) (interval j) (unit_ j) (Some tm) (job_func j)
        (last_run j) (next_run j) (tags j).
Definition set_job_func (f : callable) (j : t) : t :=
  mkJob (jid j) (interval j) (unit_ j) (at_time j) (Some f)
        (last_run j) (next_run j) (tags j).
Definition set_last_run (when : Z) (j : t) : t :=
  mkJob (jid j) (interval j) (unit_ j) (at_time j) (job_func j)
        (Some when) (next_run j) (tags j).
Definition set_next_run (when : Z) (j : t) : t :=
  mkJob (jid j) (interval j) (unit_ j) (at_time j) (job_func j)
        (last_run j) (Some when) (tags j).
Definition set_tags (ts : gset string) (j : t) : t :=
  mkJob (jid j) (interval j) (unit_ j) (at_time j) (job_func j)
        (last_run j) (next_run j) ts.

(** [Job(interval, scheduler)] *)
Definition init (id : nat) (interval : Z) : t :=
  mkJob id interval None None None None None ∅.

(** The properties [seconds], [minutes], [hours], [days]. *)
Definition seconds : t -> t := set_unit Seconds.
Definition minutes : t -> t := set_unit Minutes.
Definition hours : t -> t := set_unit Hours.
Definition days : t -> t := set_unit Days.

(** The property [day]: [days] for an interval of one, else
    [IntervalError]. *)
Definition day (j : t) : result t :=
  if negb (interval j =? 1) then Raise IntervalError else Ok (days j).

(** [tag(name)] for one [str] tag. *)
Definition tag (name : string) (j : t) : t := set_tags (tags j ∪ {[ name ]}) j.

Definition char_between (lo hi : nat) (c : ascii) : bool :=
  (lo <=? Py.ord c)%nat && (Py.ord c <=? hi)%nat.

(** [[0-2]\d:[0-5]\d(:[0-5]\d)?] against a whole string. *)
Definition daily_pattern (l : list ascii) : bool :=
  let hhmm h1 h2 c1 m1 m2 :=
    char_between 48 50 h1 && Py.isdigit h2 && (Py.ord c1 =? 58)%nat
    && char_between 48 53 m1 && Py.isdigit m2 in
  match l with
  | [h1; h2; c1; m1; m2] => hhmm h1 h2 c1 m1 m2
  | [h1; h2; c1; m1; m2; c2; s1; s2] =>
      hhmm h1 h2 c1 m1 m2 && (Py.ord c2 =? 58)%nat
      && char_between 48 53 s1 && Py.isdigit s2
  | _ => false
  end.

(** [re.match(r"^[0-2]\d:[0-5]\d(:[0-5]\d)?$", time_str)]: [$] also matches
    just before a line feed that ends the string. *)
Definition re_match_daily (time_str : string) : bool :=
  let l := list_ascii_of_string time_str in
  daily_pattern l
  || match rev l with
     | c :: r => (Py.ord c =? 10)%nat && daily_pattern (rev r)
     | [] => false
     end.

(** [time_str.split(":")] *)
Fixpoint split_colon (cur : list ascii) (l : list ascii) : list string :=
  match l with
  | [] => [string_of_list_ascii (rev cur)]
  | c :: l' =>
      if (Py.ord c =? 58)%nat
      then string_of_list_ascii (rev cur) :: split_colon [] l'
      else split_colon (c :: cur) l'
  end.

Definition int_or_raise (s : string) : result Z :=
  match Py.int s with
  | Some n => Ok n
  | None => Raise ValueError
  end.

(** The [datetime.time] that [at(time_str)] computes on a job whose unit is
    ["days"], the one branch this program reaches (through
    [every().day.at(trigger_time)]). *)
Definition daily_time (time_str : string) : result datetime.time :=
  if negb (re_match_daily time_str) then Raise ScheduleValueError
  else
    hms ← match split_colon [] (list_ascii_of_string time_str) with
          | [h; m; s] => s' ← int_or_raise s; Ok (h, m, s')
          | [h; m] => Ok (h, m, 0)
          | _ => Raise ValueError
          end;
    let '(h, m, s) := hms in
    hour ← int_or_raise h;
    if negb ((0 <=? hour) && (hour <=? 23)) then Raise ScheduleValueError
    else
      minute ← int_or_raise m;
      Ok (datetime.mkTime hour minute s).

(** [at(time_str)] on a daily job. *)
Definition at_daily (time_str : string) (j : t) : result t :=
  tm ← daily_time time_str; Ok (set_at_time tm j).

(** [_schedule_next_run()], at time [now]. *)
Definition _schedule_next_run (now : Z) (j : t) : result t :=
  match unit_ j with
  | None => Raise ScheduleValueError
  | Some u =>
      period ← datetime.timedelta (interval j * unit_us u);
      nr ← datetime.add now period;
      match at_time j with
      | None => Ok (set_next_run nr j)
      | Some tm =>
          match u with
          | Seconds => Raise ScheduleValueError
          | _ =>
              let h := match u with Days => Some (datetime.hour tm) | _ => None end in
              let m := match u with
                       | Days | Hours => Some (datetime.minute tm)
                       | _ => None
                       end in
              let nr := datetime.replace nr h m (datetime.second tm) in
              let catch_up := match last_run j with
                              | None => true
                              | Some lr => nr - lr >? period
                              end in
              nr' ← (if negb catch_up then Ok nr
                     else match u with
                          | Days =>
                              if (datetime.time_us tm >? datetime.time_of now)
                                 && (interval j =? 1)
                              then datetime.sub nr datetime.us_per_day
                              else Ok nr
                          | Hours =>
                              if (datetime.minute tm >? datetime.minute_of now)
                                 || ((datetime.minute tm =? datetime.minute_of now)
                                     && (datetime.second tm >? datetime.second_of now))
                              then datetime.sub nr datetime.us_per_hour
                              else Ok nr
                          | Minutes =>
                              if datetime.second tm >? datetime.second_of now
                              then datetime.sub nr datetime.us_per_minute
                              else Ok nr
                          | Seconds => Ok nr
                          end);
              Ok (set_next_run nr' j)
          end
      end
  end.

(** The property [should_run]. *)
Definition should_run (now : Z) (j : t) : result bool :=
  match next_run j with
  | None => Raise AssertionError
  | Some nr => Ok (now >=? nr)
  end.

(** [do(job_func)]: binds the function, computes the first [next_run] and
    appends the job to [jobs], the list [self.scheduler.jobs]. *)
Definition do (f : callable) (now : Z) (j : t) (jobs : list t)
  : result t * list t :=
  match _schedule_next_run now (set_job_func f j) with
  | Ok j' => (Ok j', jobs ++ [j'])
  | Raise e => (Raise e, jobs)
  end.

(** [run()] at time [now]: what the call returns ([Ok true] for
    [CancelJob]) or raises, and the job after it.  The package does not
    catch what the job function raises: the exception leaves [run] before
    [last_run] and [next_run] are written. *)
Definition run (now : Z) (j : t) : result bool * t :=
  match job_func j with
  | None => (Raise TypeError, j)
  | Some f =>
      match f now with
      | Raises e => (Raise e, j)
      | Returns cancel =>
          let j1 := set_last_run now j in
          match _schedule_next_run now j1 with
          | Ok j2 => (Ok cancel, j2)
          | Raise e => (Raise e, j1)
          end
      end
  end.

End Job.

(** ** State *)

(** A thread created by [run] to execute [_run_loop(interval)]. *)
Record LoopThread : Type := mkThread {
  th_interval : Z;
  th_alive : bool;
}.

(** The attributes of a [TaskScheduler] ([jobs] is [self.scheduler.jobs]) and
    the part of the process around it that its methods touch. *)
Record State : Type := mkState {
  jobs : list Job.t;
  scheduler_thread : option nat;     (* index into [threads] *)
  is_running : bool;
  clock : Z;                         (* [datetime.datetime.now()] *)
  next_jid : nat;                    (* identity of the next [Job] object *)
  threads : list LoopThread;         (* every thread started so far *)
  atexit : nat;                      (* registrations of [self.stop] *)
  calls : list nat;                  (* job functions invoked, by [jid] *)
}.

Definition set_jobs (js : list Job.t) (st : State) : State :=
  mkState js (scheduler_thread st) (is_running st) (clock st) (next_jid st)
          (threads st) (atexit st) (calls st).
Definition set_scheduler_thread (th : option nat) (st : State) : State :=
  mkState (jobs st) th (is_running st) (clock st) (next_jid st)
          (threads st) (atexit st) (calls st).
Definition set_is_running (b : bool) (st : State) : State :=
  mkState (jobs st) (scheduler_thread st) b (clock st) (next_jid st)
          (threads st) (atexit st) (calls st).
Definition set_clock (now : Z) (st : State) : State :=
  mkState (jobs st) (scheduler_thread st) (is_running st) now (next_jid st)
          (threads st) (atexit st) (calls st).
Definition set_next_jid (n : nat) (st : State) : State :=
  mkState (jobs st) (scheduler_thread st) (is_running st) (clock st) n
          (threads st) (atexit st) (calls st).
Definition set_threads (ths : list LoopThread) (st : State) : State :=
  mkState (jobs st) (scheduler_thread st) (is_running st) (clock st)
          (next_jid st) ths (atexit st) (calls st).
Definition set_atexit (n : nat) (st : State) : State :=
  mkState (jobs st) (scheduler_thread st) (is_running st) (clock st)
          (next_jid st) (threads st) n (calls st).
Definition set_calls (cs : list nat) (st : State) : State :=
  mkState (jobs st) (scheduler_thread st) (is_running st) (clock st)
          (next_jid st) (threads st) (atexit st) cs.

(** [TaskScheduler()] in a process whose clock reads [now]. *)
Definition init (now : Z) : State :=
  mkState [] None false now 0 [] 0 [].

(** ** The [schedule] package: [Scheduler] *)

Module Scheduler.

(** [every(interval)]: a new [Job] object. *)
Definition every (interval : Z) (st : State) : Job.t * State :=
  (Job.init (next_jid st) interval, set_next_jid (S (next_jid st)) st).

(** Writing through a reference to a job: the entry of [jobs] that is the
    same object takes the new attributes. *)
Definition store (j : Job.t) (js : list Job.t) : list Job.t :=
  map (fun k => if (Job.jid k =? Job.jid j)%nat then j else k) js.

(** [cancel_job(job)]: [self.jobs.remove(job)], a missing job ignored. *)
Fixpoint cancel_job (j : Job.t) (js : list Job.t) : list Job.t :=
  match js with
  | [] => []
  | k :: js' =>
      if (Job.jid k =? Job.jid j)%nat then js' else k :: cancel_job j js'
  end.

(** [clear(tag)] *)
Definition clear (tag : option string) (js : list Job.t) : list Job.t :=
  match tag with
  | None => []
  | Some name => filter (fun j => name ∉ Job.tags j) js
  end.

(** [_run_job(job)]: [job.run()], then [cancel_job(job)] when the result is
    [CancelJob].  [job] is the object listed in [jobs]: what [run] writes to
    it shows there. *)
Definition _run_job (j : Job.t) (st : State) : result unit * State :=
  let st1 := match Job.job_func j with
             | Some _ => set_calls (calls st ++ [Job.jid j]) st
             | None => st
             end in
  let '(r, j') := Job.run (clock st) j in
  let st2 := set_jobs (store j' (jobs st1)) st1 in
  match r with
  | Raise e => (Raise e, st2)
  | Ok cancel =>
      (Ok tt, if cancel then set_jobs (cancel_job j' (jobs st2)) st2 else st2)
  end.

(** The jobs that [should_run], in the order of [jobs]. *)
Fixpoint runnable_jobs (now : Z) (js : list Job.t) : result (list Job.t) :=
  match js with
  | [] => Ok []
  | j :: js' =>
      b ← Job.should_run now j;
      r ← runnable_jobs now js';
      Ok (if b : bool then j :: r else r)
  end.

Definition next_run_key (j : Job.t) : Z := default 0 (Job.next_run j).

(** [sorted(...)] with [Job.__lt__], which compares [next_run]; the sort is
    stable. *)
Fixpoint insort (j : Job.t) (sorted : list Job.t) : list Job.t :=
  match sorted with
  | [] => [j]
  | k :: rest =>
      if next_run_key j <? next_run_key k then j :: sorted
      else k :: insort j rest
  end.

Definition sorted (js : list Job.t) : list Job.t :=
  fold_left (fun acc j => insort j acc) js [].

Fixpoint run_each (js : list Job.t) (st : State) : result unit * State :=
  match js with
  | [] => (Ok tt, st)
  | j :: js' =>
      match _run_job j st with
      | (Ok _, st') => run_each js' st'
      | (Raise e, st') => (Raise e, st')
      end
  end.

(** [run_pending()] *)
Definition run_pending (st : State) : result unit * State :=
  match runnable_jobs (clock st) (jobs st) with
  | Raise e => (Raise e, st)
  | Ok due => run_each (sorted due) st
  end.

End Scheduler.

(** ** [TaskScheduler] *)

(** The state is the last argument of every method. *)

Definition units : list string := ["days"; "hours"; "minutes"; "seconds"].

(** [lambda: logger.info(f"Reminder: {task_name}")] *)
Definition default_task (task_name : string) : callable := fun _ => Returns false.

Definition str_of (v : pyval) : string :=
  match v with PStr s => s | _ => "" end.

(** [self.scheduler.every(interval).<unit>.do(task)] after
    [interval = int(trigger_time)]. *)
Definition every_interval (unit_prop : Job.t -> Job.t) (trigger_time : string)
    (task : callable) (st : State) : result Job.t * State :=
  match Py.int trigger_time with
  | None => (Raise ValueError, st)
  | Some interval =>
      let '(j, st1) := Scheduler.every interval st in
      let '(r, js) := Job.do task (clock st1) (unit_prop j) (jobs st1) in
      (r, set_jobs js st1)
  end.

(** [self.scheduler.every().day.at(trigger_time).do(task)] *)
Definition every_day_at (trigger_time : string) (task : callable) (st : State)
  : result Job.t * State :=
  let '(j, st1) := Scheduler.every 1 st in
  match j1 ← Job.day j; Job.at_daily trigger_time j1 with
  | Raise e => (Raise e, st1)
  | Ok j2 =>
      let '(r, js) := Job.do task (clock st1) j2 (jobs st1) in
      (r, set_jobs js st1)
  end.

(** The body of the [try] statement of [schedule_reminder]. *)
Definition schedule_try (task_name trigger_time : string) (task : callable)
    (unit : pyval) (st : State) : result Job.t * State :=
  let '(r, st1) :=
    if eq_str unit "days" then every_day_at trigger_time task st
    else if eq_str unit "hours" then every_interval Job.hours trigger_time task st
    else if eq_str unit "minutes" then every_interval Job.minutes trigger_time task st
    else if eq_str unit "seconds" then every_interval Job.seconds trigger_time task st
    else (Raise OtherException, st) (* [job] is unbound: UnboundLocalError *) in
  match r with
  | Raise e => (Raise e, st1)
  | Ok job =>
      let job' := Job.tag task_name job in
      (Ok job', set_jobs (Scheduler.store job' (jobs st1)) st1)
  end.

(** [schedule_reminder(task_name, trigger_time, task, unit)] *)
Definition schedule_reminder (task_name trigger_time task unit : pyval)
    (st : State) : result Job.t * State :=
  if negb (truthy task_name) || negb (isinstance_str task_name)
  then (Raise ValueError, st)
  else if negb (truthy trigger_time) || negb (isinstance_str trigger_time)
  then (Raise ValueError, st)
  else if negb (in_str_list unit units)
  then (Raise ValueError, st)
  else
    match (match task with
           | PNone => Ok (default_task (str_of task_name))
           | PCallable f => Ok f
           | _ => Raise TypeError
           end) with
    | Raise e => (Raise e, st)
    | Ok f =>
        match schedule_try (str_of task_name) (str_of trigger_time) f unit st with
        | (Ok job, st') => (Ok job, st')
        | (Raise e, st') =>
            if is_ValueError e then (Raise ValueError, st')
            else if is_Exception e then (Raise RuntimeError, st')
            else (Raise e, st')
        end
    end.

(** [time.sleep(interval)] *)
Definition sleep (interval : Z) (st : State) : result unit * State :=
  if interval <? 0 then (Raise ValueError, st)
  else (Ok tt, set_clock (clock st + interval * datetime.us_per_second) st).

(** How one turn of the [while] statement of [_run_loop] ends. *)
Inductive turn : Type :=
  | Again                    (* the body ran; the condition is tested again *)
  | Return                   (* [_run_loop] returns *)
  | Propagate (e : exc).     (* an exception leaves [_run_loop] *)

(** One turn of [_run_loop(interval)]: the test of [self.is_running], the
    body, and the [except Exception] clause that encloses the loop. *)
Definition loop_turn (interval : Z) (st : State) : turn * State :=
  if negb (is_running st) then (Return, st)
  else
    let '(r, st') :=
      match Scheduler.run_pending st with
      | (Ok _, st1) => sleep interval st1
      | (Raise e, st1) => (Raise e, st1)
      end in
    match r with
    | Ok _ => (Again, st')
    | Raise e =>
        if is_Exception e then (Return, set_is_running false st')
        else (Propagate e, st')
    end.

(** [_run_loop(interval)], for at most [fuel] turns: [None] when the loop is
    still running after them. *)
Fixpoint _run_loop (fuel : nat) (interval : Z) (st : State)
  : option (result unit) * State :=
  match fuel with
  | O => (None, st)
  | S fuel' =>
      match loop_turn interval st with
      | (Again, st') => _run_loop fuel' interval st'
      | (Return, st') => (Some (Ok tt), st')
      | (Propagate e, st') => (Some (Raise e), st')
      end
  end.

(** One turn of the loop of thread [tid]; a thread whose [_run_loop] has
    ended is no longer alive. *)
Definition thread_step (tid : nat) (st : State) : State :=
  match threads st !! tid with
  | Some th =>
      if th_alive th then
        match loop_turn (th_interval th) st with
        | (Again, st') => st'
        | (_, st') =>
            set_threads (<[tid := mkThread (th_interval th) false]> (threads st')) st'
        end
      else st
  | None => st
  end.

(** [run(background, interval)].  With [background] false the loop runs in
    the caller, for at most [fuel] turns. *)
Definition run (background : bool) (interval : Z) (fuel : nat) (st : State)
  : option (result unit) * State :=
  if is_running st then (Some (Ok tt), st)
  else
    let st1 := set_is_running true st in
    if background then
      let tid := List.length (threads st1) in
      let st2 := set_scheduler_thread (Some tid) st1 in
      let st3 := set_threads (threads st2 ++ [mkThread interval true]) st2 in
      (Some (Ok tt), set_atexit (S (atexit st3)) st3)
    else
      match _run_loop fuel interval st1 with
      | (Some (Ok _), st2) => (Some (Ok tt), set_atexit (S (atexit st2)) st2)
      | (r, st2) => (r, st2)
      end.

(** [thread.is_alive()] *)
Definition is_alive (tid : nat) (st : State) : bool :=
  match threads st !! tid with
  | Some th => th_alive th
  | None => false
  end.

(** [thread.join(timeout)].  [in_time] tells whether the thread ends before
    the timeout: then it has taken one more turn, the one in which it finds
    the flag cleared; otherwise [join] returns with the thread still alive. *)
Definition join (tid : nat) (in_time : bool) (st : State) : State :=
  if in_time then thread_step tid st else st.

(** [stop()], with the outcome [in_time] of the wait for the thread. *)
Definition stop (in_time : bool) (st : State) : result unit * State :=
  if negb (is_running st) then (Ok tt, st)
  else
    let st1 := set_is_running false st in
    match scheduler_thread st1 with
    | Some tid =>
        if is_alive tid st1 then (Ok tt, join tid in_time st1) else (Ok tt, st1)
    | None => (Ok tt, st1)
    end.

(** [get_pending_tasks()] *)
Definition get_pending_tasks (st : State) : list pyval :=
  map (fun job => PSet (Job.tags job)) (jobs st).

(** [remove_task(task_name)] *)
Definition remove_task (task_name : string) (st : State) : bool * State :=
  let initial_count := List.length (jobs st) in
  let st' := set_jobs (Scheduler.clear (Some task_name) (jobs st)) st in
  let removed := (List.length (jobs st') <? initial_count)%nat in
  (removed, st').

(** [clear_all()] *)
Definition clear_all (st : State) : State :=
  set_jobs (Scheduler.clear None (jobs st)) st.

(** [schedule_email_summary(trigger_time)].  [summarize_emails] is the
    function of that name of [modules.email_handler], which the task
    imports when it runs; the import is taken to succeed. *)

(** The closure [email_summary_task]: it returns what [summarize_emails]
    returns, and [None] after logging when that raises an [Exception]. *)
Definition email_summary_task (summarize_emails : callable) : callable :=
  fun now =>
    match summarize_emails now with
    | Returns summary => Returns summary
    | Raises e => if is_Exception e then Returns false else Raises e
    end.

Definition schedule_email_summary (summarize_emails : callable)
    (trigger_time : pyval) (st : State) : result Job.t * State :=
  schedule_reminder (PStr "Daily Email Summary") trigger_time
    (PCallable (email_summary_task summarize_emails)) (PStr "days") st.

(** ** [PersonalAssistant] ([src/assistant.py]) *)

(** The scheduler methods of the class.  [self.scheduler] is the scheduler
    of the process, the one [get_scheduler()] hands out, so the methods act
    on the same [State]. *)
Module PersonalAssistant.

(** [except Exception as exc: raise RuntimeError(...) from exc] around a
    call whose value is dropped. *)
Definition or_runtime_error {A : Type} (r : result A) : result unit :=
  match r with
  | Ok _ => Ok tt
  | Raise e => if is_Exception e then Raise RuntimeError else Raise e
  end.


(** [stop()] *)
Definition stop (in_time : bool) (st : State) : result unit * State :=
  stop in_time st.

(** [schedule_email_reminder(time)] *)
Definition schedule_email_reminder (summarize_emails : callable) (time : pyval)
    (st : State) : result unit * State :=
  let '(r, st') := schedule_email_summary summarize_emails time st in
  (or_runtime_error r, st').

(** [schedule_custom_task(task_name, trigger_time, task, unit)] *)
Definition schedule_custom_task (task_name trigger_time task unit : pyval)
    (st : State) : result Datatypes.unit * State :=
  let '(r, st') := schedule_reminder task_name trigger_time task unit st in
  (or_runtime_error r, st').

(** [get_pending_tasks()] *)
Definition get_pending_tasks (st : State) : list pyval := get_pending_tasks st.

(** [remove_scheduled_task(task_name)] *)
Definition remove_scheduled_task (task_name : string) (st : State)
  : bool * State := remove_task task_name st.

(** The dictionary that [status()] returns, by key. *)
Record Status : Type := mkStatus {
  running : bool;
  pending_tasks : nat;
  task_names : list pyval;
}.

(** [status()] *)
Definition status (st : State) : Status :=
  mkStatus (is_running st) (List.length (get_pending_tasks st))
           (get_pending_tasks st).

End PersonalAssistant.

(** ** Vocabulary of the statements *)

(** The listed jobs are distinct objects, all created before the object
    that [every] creates next. *)
Definition wf (st : State) : Prop :=
  NoDup (Job.jid <$> jobs st)
  /\ Forall (fun j => (Job.jid j < next_jid st)%nat) (jobs st).

(** The state after a registration: [job] is listed last and one more
    object identity is used. *)
Definition registered (job : Job.t) (st : State) : State :=
  set_jobs (jobs st ++ [job]) (set_next_jid (S (next_jid st)) st).

(** The job listed last, or a blank one when none is listed. *)
Definition last_job (st : State) : Job.t :=
  List.last (jobs st) (Job.init 0 0).

(** The [next_run] of the job that a registration returned. *)
Definition next_run_of (r : result Job.t) : option Z :=
  match r with
  | Ok job => Job.next_run job
  | Raise _ => None
  end.

(** The threads that still execute [_run_loop]. *)
Definition active_loops (st : State) : nat :=
  List.length (filter (fun th => th_alive th = true) (threads st)).

(** The value of [Job.unit] for each unit, also the [unit] argument of
    [schedule_reminder] that selects it. *)
Definition unit_name (u : time_unit) : string :=
  match u with
  | Seconds => "seconds"
  | Minutes => "minutes"
  | Hours => "hours"
  | Days => "days"
  end.

(** A time of day written [HH:MM]. *)
Definition two_digits (n : nat) : string :=
  String (ascii_of_nat (48 + n / 10))
    (String (ascii_of_nat (48 + n mod 10)) EmptyString).

Definition hhmm (h m : nat) : string :=
  String.append (two_digits h) (String ":"%char (two_digits m)).

(** A trigger time that is valid for the unit, with the number [n] of units
    in one period: for days a time [HH:MM] with the hour below 24 and the
    minute below 60, once a day; for the other units a text that [int]
    reads as the positive integer [n]. *)
Definition valid_trigger (u : time_unit) (trigger_time : string) (n : Z) : Prop :=
  match u with
  | Days =>
      n = 1 /\ exists h m, (h < 24)%nat /\ (m < 60)%nat /\ trigger_time = hhmm h m
  | _ => Py.int trigger_time = Some n /\ 0 < n
  end.

(** ** States of the examples *)

(** 2026-11-03T09:15:00 *)
Definition morning : Z := 63929294100000000.

(** A job function that fails at every call. *)
Definition failing_task : callable := fun _ => Raises RuntimeError.

(** The scheduler after [schedule_reminder("backup", "2", unit="hours")]. *)
Definition one_job : State :=
  (schedule_reminder (PStr "backup") (PStr "2") PNone (PStr "hours") (init morning)).2.

(** The scheduler after a second registration under the same name. *)
Definition two_jobs : State :=
  (schedule_reminder (PStr "backup") (PStr "3") PNone (PStr "hours") one_job).2.

(** A started scheduler, polling every second, whose only job fails at
    every call and is due one second after [morning]. *)
Definition flaky_started : State :=
  (run true 1 0
     (schedule_reminder (PStr "flaky") (PStr "1") (PCallable failing_task)
        (PStr "seconds") (init morning)).2).2.

(** The same scheduler after the first turn of its loop thread, which found
    nothing due and slept for the second; the job is now due. *)
Definition flaky_due : State := thread_step 0 flaky_started.

(** A scheduler with one job, due every second, on which [run] was called
    twice. *)
Definition started_twice : State :=
  (run true 1 0
     (run true 1 0
        (schedule_reminder (PStr "tick") (PStr "1") PNone (PStr "seconds")
           (init morning)).2).2).2.

(** ** Vocabulary of the further results *)

(** What a method that only touches the registry leaves alone: the
    lifecycle flag, the threads, the exit hooks, the clock and the record of
    the job functions called. *)
Definition same_process (st st' : State) : Prop :=
  is_running st' = is_running st
  /\ scheduler_thread st' = scheduler_thread st
  /\ threads st' = threads st
  /\ atexit st' = atexit st
  /\ clock st' = clock st
  /\ calls st' = calls st.

(** The function that [schedule_reminder] registers for a [task] argument:
    the default for [None], the argument when it is callable. *)
Definition task_of (task_name : string) (task : pyval) : option callable :=
  match task with
  | PNone => Some (default_task task_name)
  | PCallable f => Some f
  | _ => None
  end.


(** What a turn of the loop leaves alone. *)
Definition same_threads (st st' : State) : Prop :=
  threads st' = threads st
  /\ scheduler_thread st' = scheduler_thread st
  /\ atexit st' = atexit st
  /\ next_jid st' = next_jid st.

(** ** Results *)

(** *** The parsers on a few inputs *)

Example int_accepts :
  Py.int "12" = Some 12 /\ Py.int " 7 " = Some 7 /\ Py.int "-5" = Some (-5)
  /\ Py.int "+3" = Some 3 /\ Py.int "1_000" = Some 1000 /\ Py.int "0" = Some 0.
Proof. vm_compute. repeat split. Qed.

Example int_rejects :
  Py.int "" = None /\ Py.int "2.5" = None /\ Py.int "ten" = None
  /\ Py.int "1__0" = None /\ Py.int "_1" = None /\ Py.int "- 5" = None
  /\ Py.int "10:30" = None.
Proof. vm_compute. repeat split. Qed.

Example daily_time_examples :
  Job.daily_time "10:30" = Ok (datetime.mkTime 10 30 0)
  /\ Job.daily_time "23:59:58" = Ok (datetime.mkTime 23 59 58)
  /\ Job.daily_time "24:00" = Raise ScheduleValueError
  /\ Job.daily_time "9:30" = Raise ScheduleValueError
  /\ Job.daily_time "10:60" = Raise ScheduleValueError.
Proof. vm_compute. repeat split. Qed.

(** Registered at 09:15, a daily job for 10:30 is first due the same day,
    one for 08:00 the next day, and a job for every 2 hours at 11:15. *)
Example first_due_examples :
  next_run_of (schedule_reminder (PStr "a") (PStr "10:30") PNone (PStr "days")
                 (init morning)).1
  = Some (morning + 4500 * datetime.us_per_second)
  /\ next_run_of (schedule_reminder (PStr "a") (PStr "08:00") PNone (PStr "days")
                    (init morning)).1
     = Some (morning + 81900 * datetime.us_per_second)
  /\ Job.next_run (last_job one_job) = Some (morning + 2 * datetime.us_per_hour).
Proof. vm_compute. repeat split. Qed.

(** *** Registration: argument checks *)

(** C6.  A unit outside days, hours, minutes, seconds makes
    [schedule_reminder] raise [ValueError], whatever the other arguments are,
    and the state, the registry in it, is the one before the call. *)
Theorem schedule_reminder_invalid_unit
    (task_name trigger_time task unit : pyval) (st : State) :
  in_str_list unit units = false ->
  schedule_reminder task_name trigger_time task unit st = (Raise ValueError, st).
Proof.
  intros Hunit. unfold schedule_reminder. rewrite Hunit. cbn [negb].
  destruct (negb (truthy task_name) || negb (isinstance_str task_name)); [done|].
  by destruct (negb (truthy trigger_time) || negb (isinstance_str trigger_time)).
Qed.

Lemma schedule_reminder_invalid_unit_witness :
  schedule_reminder (PStr "backup") (PStr "2") PNone (PStr "weeks") (init morning)
  = (Raise ValueError, init morning).
Proof. apply schedule_reminder_invalid_unit. reflexivity. Defined.

(** *** Lifecycle *)

Lemma thread_step_stopped (tid : nat) (st : State) :
  is_running st = false -> is_running (thread_step tid st) = false.
Proof.
  intros Hrun. unfold thread_step, loop_turn. rewrite Hrun. cbn.
  destruct (threads st !! tid) as [th|]; [|done]. by destruct (th_alive th).
Qed.

Lemma stop_clears (in_time : bool) (st : State) :
  (stop in_time st).1 = Ok tt /\ is_running (stop in_time st).2 = false.
Proof.
  unfold stop. destruct (is_running st) eqn:Hrun; cbn; [|done].
  destruct (scheduler_thread st) as [tid|]; [|done].
  destruct (is_alive tid _); [|done]. split; [done|]. cbn.
  unfold join. destruct in_time; [|done]. by apply thread_step_stopped.
Qed.

(** C9.  [stop] on a scheduler that is not running returns without an error
    and changes nothing; two calls in a row both return without an error and
    [is_running] is false after each, however the waits for the loop thread
    end. *)
Theorem stop_idempotent (st : State) (in_time in_time' : bool) :
  (is_running st = false -> stop in_time st = (Ok tt, st))
  /\ (stop in_time st).1 = Ok tt
  /\ is_running (stop in_time st).2 = false
  /\ stop in_time' (stop in_time st).2 = (Ok tt, (stop in_time st).2).
Proof.
  destruct (stop_clears in_time st) as [Hok Hrun].
  split; [|split; [done|split; [done|]]].
  - intros Hoff. unfold stop. by rewrite Hoff.
  - unfold stop at 1. by rewrite Hrun.
Qed.

Lemma stop_idempotent_witness :
  stop true (init morning) = (Ok tt, init morning).
Proof. exact (proj1 (stop_idempotent (init morning) true true) eq_refl). Defined.

Lemma active_loops_start (ths : list LoopThread) (interval : Z) :
  List.length (filter (fun th => th_alive th = true) (ths ++ [mkThread interval true]))
  = S (List.length (filter (fun th => th_alive th = true) ths)).
Proof.
  rewrite filter_app, length_app. cbn.
  case_decide; [cbn; lia | done].
Qed.



(** After two starts there is one loop thread; in its first two turns the
    job, due from the second turn on, is called once, and there is no second
    thread to call it again. *)
Example started_twice_polls_once :
  let st := thread_step 0 (thread_step 0 started_twice) in
  List.length (threads started_twice) = 1%nat
  /\ calls st = [0%nat]
  /\ clock st = morning + 2 * datetime.us_per_second
  /\ thread_step 1 st = st.
Proof. vm_compute. repeat split. Qed.

(** *** Removal and listing *)

Lemma filter_all_id {A : Type} (P : A -> Prop) `{!forall x, Decision (P x)}
    (l : list A) :
  Forall P l -> filter P l = l.
Proof.
  induction 1 as [|x l Hx _ IH]; [done|].
  rewrite filter_cons_True by done. by rewrite IH.
Qed.

Lemma length_filter_lt_inv {A : Type} (P : A -> Prop) `{!forall x, Decision (P x)}
    (l : list A) :
  (List.length (filter P l) < List.length l)%nat -> exists x, x ∈ l /\ ~ P x.
Proof.
  induction l as [|x l IH]; [cbn; lia|].
  intros Hlt. destruct (decide (P x)) as [HP|HP].
  - rewrite filter_cons_True in Hlt by done. cbn [List.length] in Hlt.
    destruct IH as (y & Hy & HPy); [lia|].
    exists y. split; [by apply list_elem_of_further | done].
  - exists x. split; [apply list_elem_of_here | done].
Qed.


Lemma remove_task_jobs (name : string) (st : State) (j : Job.t) :
  j ∈ jobs (remove_task name st).2 <-> j ∈ jobs st /\ name ∉ Job.tags j.
Proof.
  unfold remove_task; cbn -[Nat.ltb]. rewrite list_elem_of_filter. tauto.
Qed.

(** C10.  After [remove_task(name)] the registry holds exactly the jobs that
    were there and do not carry the tag [name], so every job tagged [name]
    goes in the one call; the result is true exactly when some job carried
    the tag before. *)
Theorem remove_task_removes_all_tagged (name : string) (st : State) :
  (forall j, j ∈ jobs (remove_task name st).2 <-> j ∈ jobs st /\ name ∉ Job.tags j)
  /\ ((remove_task name st).1 = true <-> exists j, j ∈ jobs st /\ name ∈ Job.tags j).
Proof.
  split; [apply remove_task_jobs|].
  unfold remove_task; cbn -[Nat.ltb]. rewrite Nat.ltb_lt. split.
  - intros Hlt. apply length_filter_lt_inv in Hlt as (j & Hj & Hn).
    exists j. split; [done|]. by apply dec_stable.
  - intros (j & Hj & Hn). apply (length_filter_lt _ _ j); [done|]. by intros Hc.
Qed.



(** C4.  After one registration under the name "backup" the listing is a
    one-element list whose element is the set of tags of the job, not the
    name; and no listing of any state has a [str] among its elements. *)
Theorem get_pending_tasks_yields_tag_sets :
  get_pending_tasks one_job = [PSet {[ "backup" ]}]
  /\ get_pending_tasks one_job <> [PStr "backup"]
  /\ (forall st v, v ∈ get_pending_tasks st -> isinstance_str v = false).
Proof.
  split; [|split].
  - vm_compute. reflexivity.
  - vm_compute. discriminate.
  - intros st v Hv. unfold get_pending_tasks in Hv.
    by apply list_elem_of_In, in_map_iff in Hv as (j & <- & _).
Qed.

(** *** Registration: what a call does to the registry *)

Lemma schedule_next_run_sets_next_run (now : Z) (j j' : Job.t) :
  Job._schedule_next_run now j = Ok j' ->
  exists nr, j' = Job.set_next_run nr j.
Proof.
  unfold Job._schedule_next_run. intros H.
  destruct (Job.unit_ j) as [u|]; [|done].
  destruct (datetime.timedelta _) as [period|]; [|done]. cbn in H.
  destruct (datetime.add now period) as [nr|]; [|done]. cbn in H.
  destruct (Job.at_time j) as [tm|].
  - destruct u; [done| | |];
      match type of H with
      | (?m ≫= _) = _ => destruct m as [nr'|] eqn:E; [|done]
      end; cbn in H; injection H as <-; by eexists.
  - injection H as <-. by eexists.
Qed.

Lemma do_spec (f : callable) (now : Z) (j : Job.t) (js : list Job.t) :
  match Job.do f now j js with
  | (Ok j', js') =>
      js' = js ++ [j']
      /\ exists nr, j' = Job.set_next_run nr (Job.set_job_func f j)
  | (Raise _, js') => js' = js
  end.
Proof.
  unfold Job.do.
  destruct (Job._schedule_next_run now (Job.set_job_func f j)) as [j'|e] eqn:E; [|done].
  split; [done|]. by apply schedule_next_run_sets_next_run in E.
Qed.

Lemma store_fresh (j : Job.t) (js : list Job.t) :
  Forall (fun k => Job.jid k <> Job.jid j) js -> Scheduler.store j js = js.
Proof.
  induction 1 as [|k js Hk _ IH]; [done|]. cbn.
  apply Nat.eqb_neq in Hk. rewrite Hk. f_equal. apply IH.
Qed.

Lemma store_last (j j' : Job.t) (js : list Job.t) :
  Job.jid j' = Job.jid j ->
  Forall (fun k => Job.jid k <> Job.jid j) js ->
  Scheduler.store j' (js ++ [j]) = js ++ [j'].
Proof.
  intros Hid Hfresh. unfold Scheduler.store. rewrite map_app. cbn.
  rewrite Hid, Nat.eqb_refl. f_equal.
  rewrite <- Hid. apply (store_fresh j'). by rewrite Hid.
Qed.

Lemma every_interval_spec (u : time_unit) (trigger_time : string)
    (f : callable) (st : State) :
  match every_interval (Job.set_unit u) trigger_time f st with
  | (Ok j, st') =>
      st' = registered j st
      /\ exists n nr,
           Py.int trigger_time = Some n
           /\ j = Job.mkJob (next_jid st) n (Some u) None (Some f) None (Some nr) ∅
  | (Raise _, st') => st' = st \/ st' = set_next_jid (S (next_jid st)) st
  end.
Proof.
  unfold every_interval. destruct (Py.int trigger_time) as [n|]; [|by left].
  cbn.
  pose proof (do_spec f (clock st) (Job.set_unit u (Job.init (next_jid st) n))
                (jobs st)) as Hdo.
  destruct (Job.do _ _ _ _) as [[j|e] js]; [|by right; subst js].
  destruct Hdo as [-> [nr ->]]. split; [done|]. by exists n, nr.
Qed.

Lemma every_day_at_spec (trigger_time : string) (f : callable) (st : State) :
  match every_day_at trigger_time f st with
  | (Ok j, st') =>
      st' = registered j st
      /\ exists tm nr,
           Job.daily_time trigger_time = Ok tm
           /\ j = Job.mkJob (next_jid st) 1 (Some Days) (Some tm) (Some f) None (Some nr) ∅
  | (Raise _, st') => st' = st \/ st' = set_next_jid (S (next_jid st)) st
  end.
Proof.
  unfold every_day_at. cbn. unfold Job.at_daily.
  destruct (Job.daily_time trigger_time) as [tm|]; [|by right]. cbn.
  pose proof (do_spec f (clock st)
                (Job.set_at_time tm (Job.days (Job.init (next_jid st) 1))) (jobs st)) as Hdo.
  destruct (Job.do _ _ _ _) as [[j|e] js]; [|by right; subst js].
  destruct Hdo as [-> [nr ->]]. split; [done|]. by exists tm, nr.
Qed.

Lemma wf_fresh (st : State) :
  wf st -> Forall (fun k => Job.jid k <> next_jid st) (jobs st).
Proof.
  intros [_ H]. eapply Forall_impl; [exact H|].
  intros k Hk. cbn in Hk. lia.
Qed.

Lemma tag_registered (name : string) (j : Job.t) (st : State) :
  wf st -> Job.jid j = next_jid st ->
  set_jobs (Scheduler.store (Job.tag name j) (jobs (registered j st))) (registered j st)
  = registered (Job.tag name j) st.
Proof.
  intros Hwf Hid. unfold registered at 1 2. cbn -[Scheduler.store].
  rewrite store_last; [done|done|]. rewrite Hid. by apply wf_fresh.
Qed.

(** What the [try] body does: on success the tagged job is appended to the
    registry; on failure nothing changes but, at most, the count of objects
    created. *)
Lemma schedule_try_spec (name trigger_time : string) (f : callable)
    (unit : pyval) (st : State) :
  wf st ->
  match schedule_try name trigger_time f unit st with
  | (Ok job, st') =>
      st' = registered job st
      /\ exists n u tm nr,
           job = Job.mkJob (next_jid st) n (Some u) tm (Some f) None (Some nr) {[ name ]}
  | (Raise _, st') => st' = st \/ st' = set_next_jid (S (next_jid st)) st
  end.
Proof.
  intros Hwf. unfold schedule_try.
  assert (Hint : forall u,
    match (let '(r, st1) := every_interval (Job.set_unit u) trigger_time f st in
           match r with
           | Raise e => (Raise e, st1)
           | Ok job =>
               (Ok (Job.tag name job),
                set_jobs (Scheduler.store (Job.tag name job) (jobs st1)) st1)
           end) with
    | (Ok job, st') =>
        st' = registered job st
        /\ exists n u tm nr,
             job = Job.mkJob (next_jid st) n (Some u) tm (Some f) None (Some nr) {[ name ]}
    | (Raise _, st') => st' = st \/ st' = set_next_jid (S (next_jid st)) st
    end).
  { intros u. pose proof (every_interval_spec u trigger_time f st) as H.
    destruct (every_interval _ _ _ _) as [[j|e] st1]; [|done].
    destruct H as [-> (n & nr & _ & ->)].
    rewrite tag_registered by done. split; [done|].
    exists n, u, None, nr. unfold Job.tag, Job.set_tags. cbn.
    by rewrite (left_id_L ∅ (∪)). }
  destruct (eq_str unit "days").
  { pose proof (every_day_at_spec trigger_time f st) as H.
    destruct (every_day_at _ _ _) as [[j|e] st1]; [|done].
    destruct H as [-> (tm & nr & _ & ->)].
    rewrite tag_registered by done. split; [done|].
    exists 1, Days, (Some tm), nr. unfold Job.tag, Job.set_tags. cbn.
    by rewrite (left_id_L ∅ (∪)). }
  destruct (eq_str unit "hours"); [apply (Hint Hours)|].
  destruct (eq_str unit "minutes"); [apply (Hint Minutes)|].
  destruct (eq_str unit "seconds"); [apply (Hint Seconds)|].
  by left.
Qed.

Lemma schedule_reminder_inv (task_name trigger_time task unit : pyval)
    (st st' : State) (job : Job.t) :
  schedule_reminder task_name trigger_time task unit st = (Ok job, st') ->
  exists name trig f,
    task_name = PStr name /\ trigger_time = PStr trig
    /\ schedule_try name trig f unit st = (Ok job, st').
Proof.
  unfold schedule_reminder. intros H.
  destruct task_name as [|?|name|?|?];
    cbn [isinstance_str negb] in H; rewrite ?orb_true_r in H; try discriminate H.
  destruct (negb (truthy (PStr name)) || _); [done|].
  destruct trigger_time as [|?|trig|?|?];
    cbn [isinstance_str negb] in H; rewrite ?orb_true_r in H; try discriminate H.
  destruct (negb (truthy (PStr trig)) || _); [done|].
  destruct (negb (in_str_list unit units)); [done|].
  cbn [str_of] in H.
  assert (Hgo : forall f,
    match schedule_try name trig f unit st with
    | (Ok job, st') => (Ok job, st')
    | (Raise e, st') =>
        if is_ValueError e then (Raise ValueError, st')
        else if is_Exception e then (Raise RuntimeError, st') else (Raise e, st')
    end = (Ok job, st') ->
    schedule_try name trig f unit st = (Ok job, st')).
  { intros f Hf. destruct (schedule_try name trig f unit st) as [[j|e] s]; [done|].
    by destruct (is_ValueError e), (is_Exception e). }
  destruct task as [|?|?|f|?]; try done.
  - exists name, trig, (default_task name). auto.
  - exists name, trig, f. auto.
Qed.

Lemma wf_init (now : Z) : wf (init now).
Proof. split; constructor. Qed.

Lemma wf_registered (job : Job.t) (st : State) :
  wf st -> Job.jid job = next_jid st -> wf (registered job st).
Proof.
  intros Hwf Hid. pose proof (wf_fresh st Hwf) as Hfresh.
  destruct Hwf as [Hdup Hlt]. unfold wf, registered. cbn. split.
  - rewrite fmap_app. apply NoDup_app. repeat split.
    + done.
    + intros i Hi Hi'. apply list_elem_of_singleton in Hi'. subst i.
      apply list_elem_of_fmap in Hi as (k & Hk & Hin).
      rewrite Forall_forall in Hfresh. apply (Hfresh k Hin). congruence.
    + apply NoDup_singleton.
  - apply Forall_app. split.
    + eapply Forall_impl; [exact Hlt|]. intros k Hk. cbn in Hk. lia.
    + constructor; [lia | constructor].
Qed.

Lemma wf_more_ids (st : State) : wf st -> wf (set_next_jid (S (next_jid st)) st).
Proof.
  intros [Hdup Hlt]. split; [done|]. cbn.
  eapply Forall_impl; [exact Hlt|]. intros k Hk. cbn in Hk. lia.
Qed.

(** A successful registration, in full: the state afterwards is the state
    before with the returned job listed last. *)
Lemma schedule_reminder_ok_state (task_name trigger_time task unit : pyval)
    (st st' : State) (job : Job.t) :
  wf st ->
  schedule_reminder task_name trigger_time task unit st = (Ok job, st') ->
  st' = registered job st
  /\ Job.jid job = next_jid st
  /\ exists name, task_name = PStr name /\ Job.tags job = {[ name ]}.
Proof.
  intros Hwf H.
  apply schedule_reminder_inv in H as (name & trig & f & -> & -> & H).
  pose proof (schedule_try_spec name trig f unit st Hwf) as Hspec.
  rewrite H in Hspec. destruct Hspec as [-> (n & u & tm & nr & ->)].
  split; [done|]. split; [done|]. by exists name.
Qed.

(** A failed registration inserts nothing: the state is the one before the
    call except, at most, for the count of objects created. *)
Lemma schedule_reminder_raise_state (task_name trigger_time task unit : pyval)
    (st st' : State) (e : exc) :
  wf st ->
  schedule_reminder task_name trigger_time task unit st = (Raise e, st') ->
  st' = st \/ st' = set_next_jid (S (next_jid st)) st.
Proof.
  intros Hwf. unfold schedule_reminder.
  destruct (negb (truthy task_name) || _); [intros [= _ <-]; by left|].
  destruct (negb (truthy trigger_time) || _); [intros [= _ <-]; by left|].
  destruct (negb (in_str_list unit units)); [intros [= _ <-]; by left|].
  assert (Hgo : forall f,
    match schedule_try (str_of task_name) (str_of trigger_time) f unit st with
    | (Ok job, st1) => (Ok job, st1)
    | (Raise e0, st1) =>
        if is_ValueError e0 then (Raise ValueError, st1)
        else if is_Exception e0 then (Raise RuntimeError, st1) else (Raise e0, st1)
    end = (Raise e, st') ->
    st' = st \/ st' = set_next_jid (S (next_jid st)) st).
  { intros f.
    pose proof (schedule_try_spec (str_of task_name) (str_of trigger_time) f unit st Hwf)
      as Hspec.
    destruct (schedule_try _ _ f unit st) as [[j|e0] st1]; [done|].
    destruct (is_ValueError e0), (is_Exception e0); by intros [= _ <-]. }
  destruct task as [|?|?|f|?]; try (intros [= _ <-]; by left); apply Hgo.
Qed.

Lemma wf_schedule_reminder (task_name trigger_time task unit : pyval) (st : State) :
  wf st -> wf (schedule_reminder task_name trigger_time task unit st).2.
Proof.
  intros Hwf.
  destruct (schedule_reminder task_name trigger_time task unit st) as [[job|e] st'] eqn:H.
  - apply schedule_reminder_ok_state in H as (-> & Hid & _); [|done].
    by apply wf_registered.
  - apply schedule_reminder_raise_state in H as [->| ->]; [done| |done].
    by apply wf_more_ids.
Qed.

(** C3.  A successful registration appends the new job, tagged with the
    given name, after the jobs that were registered and keeps all of those:
    nothing is replaced, and a name registered twice is listed twice. *)
Theorem schedule_reminder_appends (task_name trigger_time task unit : pyval)
    (st st' : State) (job : Job.t) :
  wf st ->
  schedule_reminder task_name trigger_time task unit st = (Ok job, st') ->
  jobs st' = jobs st ++ [job]
  /\ (exists name, task_name = PStr name /\ Job.tags job = {[ name ]})
  /\ wf st'.
Proof.
  intros Hwf H.
  pose proof (wf_schedule_reminder task_name trigger_time task unit st Hwf) as Hwf'.
  rewrite H in Hwf'.
  apply schedule_reminder_ok_state in H as (-> & _ & Hname); done.
Qed.

Lemma schedule_reminder_appends_witness :
  jobs two_jobs = jobs one_job ++ [last_job two_jobs]
  /\ (exists name, PStr "backup" = PStr name /\ Job.tags (last_job two_jobs) = {[ name ]})
  /\ wf two_jobs.
Proof.
  apply (schedule_reminder_appends (PStr "backup") (PStr "3") PNone (PStr "hours")
           one_job two_jobs (last_job two_jobs)).
  - apply (wf_schedule_reminder _ _ _ _ (init morning)), wf_init.
  - vm_compute. reflexivity.
Defined.

(** C3, as stated, fails: after two registrations under the name "backup"
    the registry holds two jobs and both carry that name. *)
Lemma duplicate_name_counterexample :
  List.length (jobs one_job) = 1%nat
  /\ List.length (jobs two_jobs) = 2%nat
  /\ map Job.tags (jobs two_jobs) = [ {[ "backup" ]}; {[ "backup" ]} ].
Proof. vm_compute. repeat split. Qed.




(** *** The registry invariant *)

Lemma wf_ids (st : State) :
  wf st <->
  NoDup (Job.jid <$> jobs st)
  /\ Forall (fun i => (i < next_jid st)%nat) (Job.jid <$> jobs st).
Proof. unfold wf. by rewrite Forall_fmap. Qed.

Lemma wf_sublist (js : list Job.t) (st : State) :
  js `sublist_of` jobs st -> wf st -> wf (set_jobs js st).
Proof.
  intros Hsub [Hdup Hlt]. split; cbn.
  - eapply sublist_NoDup; [exact Hdup|]. by apply fmap_sublist.
  - rewrite Forall_forall in Hlt. apply Forall_forall. intros k Hk.
    apply Hlt. by eapply elem_of_sublist.
Qed.

Lemma store_ids (j : Job.t) (js : list Job.t) :
  Job.jid <$> Scheduler.store j js = Job.jid <$> js.
Proof.
  induction js as [|k js IH]; [done|]. cbn.
  destruct (Job.jid k =? Job.jid j)%nat eqn:E.
  - apply Nat.eqb_eq in E. cbn. by f_equal.
  - cbn. by f_equal.
Qed.

Lemma cancel_job_sublist (j : Job.t) (js : list Job.t) :
  Scheduler.cancel_job j js `sublist_of` js.
Proof.
  induction js as [|k js IH]; [done|]. cbn.
  destruct (Job.jid k =? Job.jid j)%nat.
  - by apply sublist_cons.
  - by apply sublist_skip.
Qed.

Lemma wf_store (j : Job.t) (st : State) :
  wf st -> wf (set_jobs (Scheduler.store j (jobs st)) st).
Proof. rewrite !wf_ids. cbn. by rewrite store_ids. Qed.

Lemma wf_set_calls (cs : list nat) (st : State) : wf st -> wf (set_calls cs st).
Proof. done. Qed.

Lemma wf_run_job (j : Job.t) (st : State) :
  wf st -> wf (Scheduler._run_job j st).2.
Proof.
  intros Hwf. unfold Scheduler._run_job.
  set (st1 := match Job.job_func j with
              | Some _ => set_calls (calls st ++ [Job.jid j]) st
              | None => st
              end).
  assert (Hwf1 : wf st1) by (subst st1; by destruct (Job.job_func j)).
  destruct (Job.run (clock st) j) as [[cancel|e] j']; cbn.
  - destruct cancel; [|by apply wf_store].
    apply (wf_sublist _ (set_jobs (Scheduler.store j' (jobs st1)) st1));
      [apply cancel_job_sublist | by apply wf_store].
  - by apply wf_store.
Qed.

Lemma wf_run_each (js : list Job.t) (st : State) :
  wf st -> wf (Scheduler.run_each js st).2.
Proof.
  revert st. induction js as [|j js IH]; intros st Hwf; [done|]. cbn.
  pose proof (wf_run_job j st Hwf) as Hj.
  destruct (Scheduler._run_job j st) as [[[]|e] st1]; [by apply IH | done].
Qed.

Lemma wf_run_pending (st : State) : wf st -> wf (Scheduler.run_pending st).2.
Proof.
  intros Hwf. unfold Scheduler.run_pending.
  destruct (Scheduler.runnable_jobs _ _); [by apply wf_run_each | done].
Qed.

Lemma wf_loop_turn (interval : Z) (st : State) :
  wf st -> wf (loop_turn interval st).2.
Proof.
  intros Hwf. unfold loop_turn. destruct (is_running st); [|done]. cbn.
  pose proof (wf_run_pending st Hwf) as Hp.
  destruct (Scheduler.run_pending st) as [[[]|e] st1]; cbn in Hp.
  - unfold sleep. destruct (interval <? 0); cbn; done.
  - by destruct (is_Exception e).
Qed.

Lemma wf_run_loop (fuel : nat) (interval : Z) (st : State) :
  wf st -> wf (_run_loop fuel interval st).2.
Proof.
  revert st. induction fuel as [|fuel IH]; intros st Hwf; [done|]. cbn.
  pose proof (wf_loop_turn interval st Hwf) as Ht.
  destruct (loop_turn interval st) as [[| |e] st1]; [by apply IH | done | done].
Qed.

Lemma wf_thread_step (tid : nat) (st : State) : wf st -> wf (thread_step tid st).
Proof.
  intros Hwf. unfold thread_step.
  destruct (threads st !! tid) as [th|]; [|done].
  destruct (th_alive th); [|done].
  pose proof (wf_loop_turn (th_interval th) st Hwf) as Ht.
  by destruct (loop_turn _ _) as [[| |e] st1].
Qed.

(** The invariant holds initially ([wf_init]) and every method and every
    turn of a loop thread keeps it. *)
Lemma wf_invariant (st : State) :
  wf st ->
  (forall a b c d, wf (schedule_reminder a b c d st).2)
  /\ (forall name, wf (remove_task name st).2)
  /\ wf (clear_all st)
  /\ (forall background interval fuel, wf (run background interval fuel st).2)
  /\ (forall in_time, wf (stop in_time st).2)
  /\ (forall tid, wf (thread_step tid st)).
Proof.
  intros Hwf. split; [|split; [|split; [|split; [|split]]]].
  - intros a b c d. by apply wf_schedule_reminder.
  - intros name. apply wf_sublist; [apply sublist_filter | done].
  - apply wf_sublist; [apply sublist_nil_l | done].
  - intros background interval fuel. unfold run.
    destruct (is_running st); [done|]. destruct background; [by destruct Hwf|].
    pose proof (wf_run_loop fuel interval (set_is_running true st) Hwf) as Hl.
    by destruct (_run_loop _ _ _) as [[[[]|e]|] st1].
  - intros in_time. unfold stop. destruct (is_running st); [|done]. cbn.
    destruct (scheduler_thread st) as [tid|]; [|done].
    destruct (is_alive tid _); [|done]. cbn. unfold join.
    destruct in_time; [|done]. by apply wf_thread_step.
  - intros tid. by apply wf_thread_step.
Qed.

(** *** Registration: the first due time *)

Lemma in_range_bounds (t : Z) :
  datetime.in_range t = true <-> 0 <= t < datetime.max_days * datetime.us_per_day.
Proof.
  unfold datetime.in_range. rewrite andb_true_iff, Z.leb_le, Z.ltb_lt. tauto.
Qed.

Lemma unit_us_pos (u : time_unit) : 0 < unit_us u.
Proof. by destruct u. Qed.

Lemma timedelta_ok (us : Z) :
  0 <= us < datetime.max_days * datetime.us_per_day ->
  datetime.timedelta us = Ok us.
Proof.
  intros [Hlo Hhi]. unfold datetime.timedelta.
  assert (0 <= us / datetime.us_per_day < datetime.max_days) as [H1 H2].
  { split; [by apply Z.div_pos | apply Z.div_lt_upper_bound; [done | lia]]. }
  unfold datetime.timedelta_max_days, datetime.max_days in *.
  rewrite (proj2 (Z.leb_le _ _)), (proj2 (Z.leb_le _ _)) by lia. done.
Qed.

(** The first [next_run] of an interval job lies one period after [now]. *)
Lemma first_run_interval (now : Z) (j : Job.t) (u : time_unit) :
  Job.unit_ j = Some u -> Job.at_time j = None ->
  0 < Job.interval j ->
  datetime.in_range now = true ->
  datetime.in_range (now + Job.interval j * unit_us u) = true ->
  Job._schedule_next_run now j
  = Ok (Job.set_next_run (now + Job.interval j * unit_us u) j).
Proof.
  intros Hu Hat Hpos Hnow Hnext. unfold Job._schedule_next_run.
  rewrite Hu, Hat. apply in_range_bounds in Hnow.
  pose proof (proj1 (in_range_bounds _) Hnext) as Hb.
  pose proof (unit_us_pos u) as Hupos.
  rewrite timedelta_ok by nia. cbn.
  unfold datetime.add. by rewrite Hnext.
Qed.

Lemma time_of_bounds (t : Z) : 0 <= datetime.time_of t < datetime.us_per_day.
Proof. unfold datetime.time_of. by apply Z.mod_pos_bound. Qed.

Lemma time_of_next_day (t : Z) :
  datetime.time_of (t + datetime.us_per_day) = datetime.time_of t.
Proof.
  unfold datetime.time_of.
  replace (t + datetime.us_per_day) with (t + 1 * datetime.us_per_day) by lia.
  by rewrite Z.mod_add.
Qed.

(** The first [next_run] of a daily job is today's or tomorrow's occurrence
    of its time of day, whichever comes first after [now]. *)
Lemma first_run_daily (now : Z) (j : Job.t) (tm : datetime.time) :
  Job.unit_ j = Some Days -> Job.at_time j = Some tm ->
  Job.interval j = 1 -> Job.last_run j = None ->
  0 <= datetime.hour tm <= 23 -> 0 <= datetime.minute tm <= 59 ->
  datetime.second tm = 0 ->
  datetime.in_range now = true ->
  datetime.in_range (now + datetime.us_per_day) = true ->
  exists nr, Job._schedule_next_run now j = Ok (Job.set_next_run nr j) /\ now < nr.
Proof.
  intros Hu Hat Hint Hlast Hh Hm Hs Hnow Hnext. unfold Job._schedule_next_run.
  rewrite Hu, Hat, Hint, Hlast. apply in_range_bounds in Hnow.
  pose proof (proj1 (in_range_bounds _) Hnext) as Hb.
  cbn [unit_us]. rewrite Z.mul_1_l.
  rewrite timedelta_ok by (unfold datetime.max_days, datetime.us_per_day,
    datetime.us_per_hour, datetime.us_per_minute, datetime.us_per_second; lia).
  unfold mbind, result_bind. cbn beta iota.
  unfold datetime.add at 1. rewrite Hnext.
  unfold datetime.replace, default, id. cbn beta iota.
  change (1 =? 1)%positive with true. rewrite andb_true_r.
  rewrite time_of_next_day. unfold datetime.time_us. rewrite Hs.
  pose proof (time_of_bounds now) as Htod.
  set (tod := datetime.time_of now) in *.
  set (at_us := datetime.hour tm * datetime.us_per_hour
                + datetime.minute tm * datetime.us_per_minute
                + 0 * datetime.us_per_second).
  assert (0 <= at_us < datetime.us_per_day) as Hat_us.
  { unfold at_us, datetime.us_per_day, datetime.us_per_hour,
      datetime.us_per_minute, datetime.us_per_second. lia. }
  replace (now + datetime.us_per_day - tod
           + datetime.hour tm * datetime.us_per_hour
           + datetime.minute tm * datetime.us_per_minute
           + 0 * datetime.us_per_second)
    with (now + datetime.us_per_day - tod + at_us) by (unfold at_us; lia).
  destruct (at_us >? tod) eqn:Hcmp.
  - apply Z.gtb_lt in Hcmp. unfold datetime.sub, datetime.add.
    rewrite (proj2 (in_range_bounds _)) by lia.
    eexists. split; [reflexivity | lia].
  - assert (at_us <= tod) by (rewrite Z.gtb_ltb in Hcmp; by apply Z.ltb_ge in Hcmp).
    eexists. split; [reflexivity | lia].
Qed.

Lemma daily_time_hhmm_table :
  forallb (fun h =>
    forallb (fun m =>
      match Job.daily_time (hhmm h m) with
      | Ok tm =>
          (datetime.hour tm =? Z.of_nat h) && (datetime.minute tm =? Z.of_nat m)
          && (datetime.second tm =? 0)
      | Raise _ => false
      end) (seq 0 60)) (seq 0 24) = true.
Proof. vm_compute. reflexivity. Qed.

(** [at] accepts every [HH:MM] with the hour below 24 and the minute below
    60, and reads it as that time of day. *)
Lemma daily_time_hhmm (h m : nat) :
  (h < 24)%nat -> (m < 60)%nat ->
  Job.daily_time (hhmm h m) = Ok (datetime.mkTime (Z.of_nat h) (Z.of_nat m) 0).
Proof.
  intros Hh Hm.
  assert (Hrow := proj1 (forallb_forall _ _) daily_time_hhmm_table h
                    ltac:(apply in_seq; lia)).
  cbv beta in Hrow.
  assert (Htab := proj1 (forallb_forall _ _) Hrow m ltac:(apply in_seq; lia)).
  cbv beta in Htab. clear Hrow.
  destruct (Job.daily_time (hhmm h m)) as [[hh mm ss]|]; [|done]. cbn in Htab.
  apply andb_true_iff in Htab as [Htab Hss].
  apply andb_true_iff in Htab as [Hhh Hmm].
  apply Z.eqb_eq in Hhh, Hmm, Hss. by subst.
Qed.

Lemma stored_last (j j' : Job.t) (js : list Job.t) :
  Job.jid j' = Job.jid j -> j' ∈ Scheduler.store j' (js ++ [j]).
Proof.
  intros Hid. unfold Scheduler.store. apply list_elem_of_In, in_map_iff.
  exists j. rewrite Hid, Nat.eqb_refl. split; [done|].
  apply in_or_app. right. by left.
Qed.

Lemma schedule_try_interval_ok (name trigger_time : string) (f : callable)
    (u : time_unit) (n : Z) (st : State) (j' : Job.t) :
  u <> Days ->
  Py.int trigger_time = Some n ->
  Job._schedule_next_run (clock st)
    (Job.set_job_func f (Job.set_unit u (Job.init (next_jid st) n))) = Ok j' ->
  exists st',
    schedule_try name trigger_time f (PStr (unit_name u)) st
    = (Ok (Job.tag name j'), st')
    /\ Job.tag name j' ∈ jobs st'.
Proof.
  intros Hu Hint Hnext. unfold schedule_try.
  destruct u; [| | |done]; cbn -[Py.int every_interval];
    unfold every_interval, Job.seconds, Job.minutes, Job.hours, Job.do;
    rewrite Hint; cbn -[Job._schedule_next_run Scheduler.store]; rewrite Hnext;
    cbn -[Scheduler.store]; (eexists; split; [reflexivity|]);
    cbn -[Scheduler.store]; by apply stored_last.
Qed.

Lemma schedule_try_daily_ok (name trigger_time : string) (f : callable)
    (tm : datetime.time) (st : State) (j' : Job.t) :
  Job.daily_time trigger_time = Ok tm ->
  Job._schedule_next_run (clock st)
    (Job.set_job_func f
       (Job.set_at_time tm (Job.set_unit Days (Job.init (next_jid st) 1)))) = Ok j' ->
  exists st',
    schedule_try name trigger_time f (PStr "days") st = (Ok (Job.tag name j'), st')
    /\ Job.tag name j' ∈ jobs st'.
Proof.
  intros Htm Hnext. unfold schedule_try.
  cbn -[every_day_at]. unfold every_day_at, Job.at_daily, Job.do.
  cbn -[Job.daily_time Job._schedule_next_run Scheduler.store].
  rewrite Htm. cbn -[Job._schedule_next_run Scheduler.store].
  unfold Job.days. rewrite Hnext. cbn -[Scheduler.store].
  eexists; split; [reflexivity|]. cbn -[Scheduler.store]. by apply stored_last.
Qed.

Lemma valid_trigger_nonempty (u : time_unit) (trigger_time : string) (n : Z) :
  valid_trigger u trigger_time n -> trigger_time <> "".
Proof.
  intros Hv ->. destruct u; cbn in Hv;
    try (by destruct Hv as [Hv _]).
  by destruct Hv as [_ (h & m & _ & _ & Hv)].
Qed.

(** C5.  With a non-empty name, no task or a callable one, a unit among the
    four and a trigger time valid for it, [schedule_reminder] succeeds when
    the end of the first period is a [datetime]: the job returned is in the
    registry and its [next_run] is later than the time of the call. *)
Theorem schedule_reminder_valid (name trigger_time : string) (task : pyval)
    (u : time_unit) (n : Z) (st : State) :
  name <> "" ->
  task = PNone \/ is_callable task = true ->
  valid_trigger u trigger_time n ->
  datetime.in_range (clock st) = true ->
  datetime.in_range (clock st + n * unit_us u) = true ->
  exists job st' nr,
    schedule_reminder (PStr name) (PStr trigger_time) task (PStr (unit_name u)) st
    = (Ok job, st')
    /\ job ∈ jobs st'
    /\ Job.next_run job = Some nr
    /\ clock st < nr.
Proof.
  intros Hname Htask Hvalid Hnow Hnext.
  pose proof (valid_trigger_nonempty _ _ _ Hvalid) as Htrig.
  unfold schedule_reminder. cbn [truthy isinstance_str negb orb str_of].
  apply String.eqb_neq in Hname, Htrig. rewrite Hname, Htrig. cbn [negb orb].
  replace (in_str_list (PStr (unit_name u)) units) with true by (by destruct u).
  cbn [negb].
  assert (Hf : exists f, match task with
                         | PNone => Ok (default_task name)
                         | PCallable f => Ok f
                         | _ => Raise TypeError
                         end = Ok f).
  { destruct Htask as [->|Hc]; [by eexists|]. destruct task; try done. by eexists. }
  destruct Hf as [f ->].
  assert (Hgo : exists j' st' nr,
    schedule_try name trigger_time f (PStr (unit_name u)) st
    = (Ok (Job.tag name j'), st')
    /\ Job.tag name j' ∈ jobs st'
    /\ Job.next_run j' = Some nr /\ clock st < nr).
  { destruct (decide (u = Days)) as [->|Hu].
    - destruct Hvalid as [-> (h & m & Hh & Hm & ->)].
      destruct (first_run_daily (clock st)
                  (Job.set_job_func f
                     (Job.set_at_time (datetime.mkTime (Z.of_nat h) (Z.of_nat m) 0)
                        (Job.set_unit Days (Job.init (next_jid st) 1))))
                  (datetime.mkTime (Z.of_nat h) (Z.of_nat m) 0))
        as (nr & Hrun & Hlt); try done;
        try (cbn [datetime.hour datetime.minute]; lia).
      destruct (schedule_try_daily_ok name (hhmm h m) f _ st _
                  (daily_time_hhmm h m Hh Hm) Hrun) as (st' & Htry & Hin).
      eexists _, st', nr. by repeat split.
    - assert (Py.int trigger_time = Some n /\ 0 < n) as [Hint Hpos]
        by (by destruct u).
      pose proof (first_run_interval (clock st)
                    (Job.set_job_func f (Job.set_unit u (Job.init (next_jid st) n))) u
                    eq_refl eq_refl Hpos Hnow Hnext) as Hrun.
      destruct (schedule_try_interval_ok name trigger_time f u n st _ Hu Hint Hrun)
        as (st' & Htry & Hin).
      eexists _, st', (clock st + n * unit_us u). repeat split; try done.
      pose proof (unit_us_pos u). nia. }
  destruct Hgo as (j' & st' & nr & -> & Hin & Hnr & Hlt).
  by exists (Job.tag name j'), st', nr.
Qed.

Lemma schedule_reminder_valid_witness :
  exists job st' nr,
    schedule_reminder (PStr "backup") (PStr "02:30") PNone (PStr "days") (init morning)
    = (Ok job, st')
    /\ job ∈ jobs st'
    /\ Job.next_run job = Some nr
    /\ morning < nr.
Proof.
  apply (schedule_reminder_valid "backup" (hhmm 2 30) PNone Days 1 (init morning)).
  - done.
  - by left.
  - split; [done|]. exists 2%nat, 30%nat. repeat split; lia.
  - reflexivity.
  - reflexivity.
Defined.

(** C5, as stated, fails: "100000000" is a positive integer, yet a period
    of that many hours ends after [datetime.max], the addition overflows
    and the call raises [RuntimeError] without registering a job. *)
Lemma far_interval_counterexample :
  valid_trigger Hours "100000000" 100000000
  /\ schedule_reminder (PStr "backup") (PStr "100000000") PNone (PStr "hours")
       (init morning)
     = (Raise RuntimeError, set_next_jid 1 (init morning)).
Proof. split; [split|]; vm_compute; reflexivity. Qed.

(** *** The loop and a job that raises *)

Lemma schedule_next_run_raises_Exception (now : Z) (j : Job.t) (e : exc) :
  Job._schedule_next_run now j = Raise e -> is_Exception e = true.
Proof.
  assert (Hadd : forall a b e', datetime.add a b = Raise e' -> is_Exception e' = true).
  { intros a b e'. unfold datetime.add. destruct (datetime.in_range _); [done|].
    by intros [= <-]. }
  unfold Job._schedule_next_run. intros H.
  destruct (Job.unit_ j) as [u|]; [|by injection H as <-].
  unfold datetime.timedelta in H.
  destruct (_ && _); [|by injection H as <-]. cbn in H.
  destruct (datetime.add now _) as [nr|e0] eqn:Hnr;
    [|injection H as <-; by eapply Hadd]. cbn in H.
  destruct (Job.at_time j) as [tm|]; [|done].
  destruct u; [by injection H as <-| | |];
    match type of H with
    | (?m ≫= _) = _ => destruct m as [nr'|e1] eqn:E; [done|]
    end; cbn in H; injection H as <-;
    repeat match type of E with
           | context [if ?cond then _ else _] => destruct cond
           end; try done; by eapply Hadd.
Qed.

(** What one [_run_job] leaves alone. *)
Lemma run_job_frame (j : Job.t) (st : State) :
  clock (Scheduler._run_job j st).2 = clock st
  /\ is_running (Scheduler._run_job j st).2 = is_running st.
Proof.
  unfold Scheduler._run_job.
  destruct (Job.job_func j) as [g|];
    destruct (Job.run (clock st) j) as [[cancel|e] j'];
    try destruct cancel; done.
Qed.


Lemma run_job_raise_class (j : Job.t) (e : exc) (st : State) :
  (forall g e', Job.job_func j = Some g -> g (clock st) = Raises e' ->
                is_Exception e' = true) ->
  (Scheduler._run_job j st).1 = Raise e -> is_Exception e = true.
Proof.
  intros Hcls. unfold Scheduler._run_job, Job.run.
  destruct (Job.job_func j) as [g|]; [|by intros [= <-]].
  destruct (g (clock st)) as [c|e0] eqn:Hg.
  - destruct (Job._schedule_next_run _ _) as [j2|e1] eqn:Hn.
    + by destruct c.
    + cbn. intros [= <-]. by eapply schedule_next_run_raises_Exception.
  - cbn. intros [= <-]. by eapply Hcls.
Qed.


Lemma elem_of_insort (j k : Job.t) (l : list Job.t) :
  k ∈ Scheduler.insort j l <-> k = j \/ k ∈ l.
Proof.
  induction l as [|x l IH]; cbn.
  - rewrite list_elem_of_singleton, elem_of_nil. tauto.
  - destruct (_ <? _).
    + by rewrite elem_of_cons.
    + rewrite !elem_of_cons, IH. tauto.
Qed.

Lemma elem_of_sorted (k : Job.t) (l : list Job.t) :
  k ∈ Scheduler.sorted l <-> k ∈ l.
Proof.
  unfold Scheduler.sorted.
  assert (H : forall acc,
    k ∈ fold_left (fun acc j => Scheduler.insort j acc) l acc <-> k ∈ acc \/ k ∈ l).
  { induction l as [|x l IH]; intros acc; cbn.
    - rewrite elem_of_nil. tauto.
    - rewrite IH, elem_of_insort, elem_of_cons. tauto. }
  rewrite H, elem_of_nil. tauto.
Qed.

Lemma runnable_jobs_spec (now : Z) (js due : list Job.t) :
  Scheduler.runnable_jobs now js = Ok due ->
  forall j, j ∈ due <-> j ∈ js /\ Job.should_run now j = Ok true.
Proof.
  revert due. induction js as [|k js IH]; intros due H j.
  - injection H as <-. rewrite !elem_of_nil. tauto.
  - cbn in H. destruct (Job.should_run now k) as [b|] eqn:Hk; [|done]. cbn in H.
    destruct (Scheduler.runnable_jobs now js) as [r|]; [|done]. cbn in H.
    injection H as <-. specialize (IH r eq_refl j).
    destruct b; rewrite ?elem_of_cons, IH.
    + split; [intros [->|[? ?]]; auto | intros [[->|?] ?]; auto].
    + split; [intros [? ?]; auto | intros [[->|?] ?]; [congruence | auto]].
Qed.

Lemma runnable_jobs_raises_Exception (now : Z) (js : list Job.t) (e : exc) :
  Scheduler.runnable_jobs now js = Raise e -> is_Exception e = true.
Proof.
  induction js as [|k js IH]; [done|]. cbn.
  unfold Job.should_run at 1. destruct (Job.next_run k); [|by intros [= <-]]. cbn.
  destruct (Scheduler.runnable_jobs now js); [done|]. cbn. intros [= <-]. by apply IH.
Qed.





(** ** Further results *)

(** *** Registration: failures and what a call leaves alone *)

Lemma daily_time_raises_Exception (time_str : string) (e : exc) :
  Job.daily_time time_str = Raise e -> is_Exception e = true.
Proof.
  unfold Job.daily_time, Job.int_or_raise.
  destruct (negb (Job.re_match_daily time_str)); [by intros [= <-]|].
  destruct (Job.split_colon [] _) as [|h [|m [|s [|? ?]]]]; cbn;
    try (by intros [= <-]).
  - destruct (Py.int h) as [hour|]; cbn; [|by intros [= <-]].
    destruct (negb _); [by intros [= <-]|].
    destruct (Py.int m); cbn; [done | by intros [= <-]].
  - destruct (Py.int s); cbn; [|by intros [= <-]].
    destruct (Py.int h) as [hour|]; cbn; [|by intros [= <-]].
    destruct (negb _); [by intros [= <-]|].
    destruct (Py.int m); cbn; [done | by intros [= <-]].
Qed.

Lemma do_raises_Exception (f : callable) (now : Z) (j : Job.t)
    (js js' : list Job.t) (e : exc) :
  Job.do f now j js = (Raise e, js') -> is_Exception e = true.
Proof.
  unfold Job.do.
  destruct (Job._schedule_next_run now _) as [j'|e0] eqn:E; [done|].
  intros [= <- _]. by eapply schedule_next_run_raises_Exception.
Qed.

Lemma every_interval_raises_Exception (u : time_unit) (trigger_time : string)
    (f : callable) (st st' : State) (e : exc) :
  every_interval (Job.set_unit u) trigger_time f st = (Raise e, st') ->
  is_Exception e = true.
Proof.
  unfold every_interval. destruct (Py.int trigger_time) as [n|]; [|by intros [= <- _]].
  cbn. destruct (Job.do _ _ _ _) as [r js] eqn:E. intros [= -> _].
  by eapply do_raises_Exception.
Qed.

Lemma every_day_at_raises_Exception (trigger_time : string) (f : callable)
    (st st' : State) (e : exc) :
  every_day_at trigger_time f st = (Raise e, st') -> is_Exception e = true.
Proof.
  unfold every_day_at. cbn. unfold Job.at_daily.
  destruct (Job.daily_time trigger_time) as [tm|e0] eqn:Etm; cbn.
  - destruct (Job.do _ _ _ _) as [r js] eqn:E. intros [= -> _].
    by eapply do_raises_Exception.
  - intros [= <- _]. by eapply daily_time_raises_Exception.
Qed.

Lemma schedule_try_raises_Exception (name trigger_time : string) (f : callable)
    (unit : pyval) (st st' : State) (e : exc) :
  schedule_try name trigger_time f unit st = (Raise e, st') ->
  is_Exception e = true.
Proof.
  unfold schedule_try.
  assert (Hint : forall u,
    (let '(r, st1) := every_interval (Job.set_unit u) trigger_time f st in
     match r with
     | Raise e0 => (Raise e0, st1)
     | Ok job =>
         (Ok (Job.tag name job),
          set_jobs (Scheduler.store (Job.tag name job) (jobs st1)) st1)
     end) = (Raise e, st') -> is_Exception e = true).
  { intros u. destruct (every_interval _ _ _ _) as [[j|e0] st1] eqn:E; [done|].
    intros [= <- _]. by eapply every_interval_raises_Exception. }
  destruct (eq_str unit "days").
  { destruct (every_day_at _ _ _) as [[j|e0] st1] eqn:E; [done|].
    intros [= <- _]. by eapply every_day_at_raises_Exception. }
  destruct (eq_str unit "hours"); [apply (Hint Hours)|].
  destruct (eq_str unit "minutes"); [apply (Hint Minutes)|].
  destruct (eq_str unit "seconds"); [apply (Hint Seconds)|].
  by intros [= <- _].
Qed.

(** X1.  Whatever the arguments, an exception that leaves
    [schedule_reminder] is a [ValueError], a [TypeError] or a
    [RuntimeError]. *)
Theorem schedule_reminder_error_classes (task_name trigger_time task unit : pyval)
    (st st' : State) (e : exc) :
  schedule_reminder task_name trigger_time task unit st = (Raise e, st') ->
  e = ValueError \/ e = TypeError \/ e = RuntimeError.
Proof.
  unfold schedule_reminder.
  destruct (negb (truthy task_name) || _); [intros [= <- _]; by left|].
  destruct (negb (truthy trigger_time) || _); [intros [= <- _]; by left|].
  destruct (negb (in_str_list unit units)); [intros [= <- _]; by left|].
  assert (Hgo : forall f,
    match schedule_try (str_of task_name) (str_of trigger_time) f unit st with
    | (Ok job, st1) => (Ok job, st1)
    | (Raise e0, st1) =>
        if is_ValueError e0 then (Raise ValueError, st1)
        else if is_Exception e0 then (Raise RuntimeError, st1) else (Raise e0, st1)
    end = (Raise e, st') ->
    e = ValueError \/ e = TypeError \/ e = RuntimeError).
  { intros f. destruct (schedule_try _ _ f unit st) as [[j|e0] st1] eqn:E; [done|].
    apply schedule_try_raises_Exception in E. rewrite E.
    destruct (is_ValueError e0); intros [= <- _]; auto. }
  destruct task as [|?|?|f|?]; try (intros [= <- _]; auto); apply Hgo.
Qed.

Lemma schedule_reminder_error_classes_witness :
  RuntimeError = ValueError \/ RuntimeError = TypeError
  \/ RuntimeError = RuntimeError.
Proof.
  apply (schedule_reminder_error_classes (PStr "backup") (PStr "9:30") PNone
           (PStr "days") (init morning) (set_next_jid 1 (init morning))).
  vm_compute. reflexivity.
Defined.

(** The state after a call of [schedule_reminder], successful or not, is
    the state before with, at most, another registry and another count of
    objects created. *)
Lemma schedule_try_state (name trigger_time : string) (f : callable)
    (unit : pyval) (st : State) :
  match schedule_try name trigger_time f unit st with
  | (Ok _, st') => exists js, st' = set_jobs js (set_next_jid (S (next_jid st)) st)
  | (Raise _, st') => st' = st \/ st' = set_next_jid (S (next_jid st)) st
  end.
Proof.
  unfold schedule_try.
  assert (Hint : forall u,
    match (let '(r, st1) := every_interval (Job.set_unit u) trigger_time f st in
           match r with
           | Raise e0 => (Raise e0, st1)
           | Ok job =>
               (Ok (Job.tag name job),
                set_jobs (Scheduler.store (Job.tag name job) (jobs st1)) st1)
           end) with
    | (Ok _, st') => exists js, st' = set_jobs js (set_next_jid (S (next_jid st)) st)
    | (Raise _, st') => st' = st \/ st' = set_next_jid (S (next_jid st)) st
    end).
  { intros u. pose proof (every_interval_spec u trigger_time f st) as H.
    destruct (every_interval _ _ _ _) as [[j|e0] st1]; [|done].
    destruct H as [-> _]. by eexists. }
  destruct (eq_str unit "days").
  { pose proof (every_day_at_spec trigger_time f st) as H.
    destruct (every_day_at _ _ _) as [[j|e0] st1]; [|done].
    destruct H as [-> _]. by eexists. }
  destruct (eq_str unit "hours"); [apply (Hint Hours)|].
  destruct (eq_str unit "minutes"); [apply (Hint Minutes)|].
  destruct (eq_str unit "seconds"); [apply (Hint Seconds)|].
  by left.
Qed.

(** X2.  A call of [schedule_reminder] that raises inserts nothing: the
    state is the one before the call except, at most, for the count of
    objects created. *)
Theorem schedule_reminder_failure_atomic (task_name trigger_time task unit : pyval)
    (st st' : State) (e : exc) :
  schedule_reminder task_name trigger_time task unit st = (Raise e, st') ->
  jobs st' = jobs st
  /\ (st' = st \/ st' = set_next_jid (S (next_jid st)) st).
Proof.
  intros H.
  assert (Hst : st' = st \/ st' = set_next_jid (S (next_jid st)) st).
  { revert H. unfold schedule_reminder.
    destruct (negb (truthy task_name) || _); [intros [= _ <-]; by left|].
    destruct (negb (truthy trigger_time) || _); [intros [= _ <-]; by left|].
    destruct (negb (in_str_list unit units)); [intros [= _ <-]; by left|].
    assert (Hgo : forall f,
      match schedule_try (str_of task_name) (str_of trigger_time) f unit st with
      | (Ok job, st1) => (Ok job, st1)
      | (Raise e0, st1) =>
          if is_ValueError e0 then (Raise ValueError, st1)
          else if is_Exception e0 then (Raise RuntimeError, st1) else (Raise e0, st1)
      end = (Raise e, st') ->
      st' = st \/ st' = set_next_jid (S (next_jid st)) st).
    { intros f.
      pose proof (schedule_try_state (str_of task_name) (str_of trigger_time) f unit st)
        as Hspec.
      destruct (schedule_try _ _ f unit st) as [[j|e0] st1]; [done|].
      destruct (is_ValueError e0), (is_Exception e0); by intros [= _ <-]. }
    destruct task as [|?|?|f|?]; try (intros [= _ <-]; by left); apply Hgo. }
  split; [|done]. by destruct Hst as [->| ->].
Qed.

Lemma schedule_reminder_failure_atomic_witness :
  jobs one_job = jobs one_job
  /\ (one_job = one_job \/ one_job = set_next_jid (S (next_jid one_job)) one_job).
Proof.
  apply (schedule_reminder_failure_atomic (PStr "backup") (PStr "soon") PNone
           (PStr "minutes") one_job one_job ValueError).
  vm_compute. reflexivity.
Defined.

(** X3.  [schedule_reminder] neither calls the task nor touches the
    lifecycle: whether it succeeds or raises, the running flag, the
    threads, the exit hooks, the clock and the record of calls are as
    before. *)
Theorem schedule_reminder_same_process (task_name trigger_time task unit : pyval)
    (st : State) :
  same_process st (schedule_reminder task_name trigger_time task unit st).2.
Proof.
  assert (Hst : exists js n,
    (schedule_reminder task_name trigger_time task unit st).2
    = set_jobs js (set_next_jid n st)).
  { assert (Hsame : exists js n, st = set_jobs js (set_next_jid n st)).
    { exists (jobs st), (next_jid st). by destruct st. }
    unfold schedule_reminder.
    destruct (negb (truthy task_name) || _); [done|].
    destruct (negb (truthy trigger_time) || _); [done|].
    destruct (negb (in_str_list unit units)); [done|].
    assert (Hgo : forall f, exists js n,
      (match schedule_try (str_of task_name) (str_of trigger_time) f unit st with
       | (Ok job, st1) => (Ok job, st1)
       | (Raise e0, st1) =>
           if is_ValueError e0 then (Raise ValueError, st1)
           else if is_Exception e0 then (Raise RuntimeError, st1)
           else (Raise e0, st1)
       end).2 = set_jobs js (set_next_jid n st)).
    { intros f.
      pose proof (schedule_try_state (str_of task_name) (str_of trigger_time) f unit st)
        as Hspec.
      destruct (schedule_try _ _ f unit st) as [[j|e0] st1].
      - destruct Hspec as [js ->]. by eexists _, _.
      - assert (exists js n, st1 = set_jobs js (set_next_jid n st)) as Hst1.
        { destruct Hspec as [->| ->]; [done|].
          exists (jobs st), (S (next_jid st)). by destruct st. }
        by destruct (is_ValueError e0), (is_Exception e0). }
    destruct task as [|?|?|f|?]; try done; apply Hgo. }
  destruct Hst as (js & n & ->). by repeat split.
Qed.

(** *** Registration: daily times the package refuses, and the first due time *)

(** Once the argument checks have passed, [schedule_reminder] is its [try]
    statement. *)
Lemma schedule_reminder_checked (name trigger_time unit : string) (task : pyval)
    (f : callable) (st : State) :
  name <> "" -> trigger_time <> "" ->
  in_str_list (PStr unit) units = true ->
  task_of name task = Some f ->
  schedule_reminder (PStr name) (PStr trigger_time) task (PStr unit) st
  = match schedule_try name trigger_time f (PStr unit) st with
    | (Ok job, st') => (Ok job, st')
    | (Raise e, st') =>
        if is_ValueError e then (Raise ValueError, st')
        else if is_Exception e then (Raise RuntimeError, st')
        else (Raise e, st')
    end.
Proof.
  intros Hname Htrig Hunit Htask. unfold schedule_reminder.
  cbn [truthy isinstance_str negb orb str_of].
  apply String.eqb_neq in Hname, Htrig. rewrite Hname, Htrig, Hunit. cbn [negb orb].
  destruct task as [|?|?|g|?]; try done; cbn in Htask; by injection Htask as <-.
Qed.

Lemma daily_pattern_rejects (time_str : string) :
  Job.re_match_daily time_str = false ->
  Job.daily_time time_str = Raise ScheduleValueError.
Proof. intros H. unfold Job.daily_time. by rewrite H. Qed.

(** X4.  For the unit days, a trigger time that [at] of the package
    refuses (it is not of the form HH:MM or HH:MM:SS, or its hour is above
    23) makes [schedule_reminder] raise [RuntimeError], not [ValueError]:
    the error of the package is not a [ValueError].  No job is registered. *)
Theorem schedule_reminder_daily_refused (name trigger_time : string) (task : pyval)
    (f : callable) (st : State) :
  name <> "" -> trigger_time <> "" ->
  task_of name task = Some f ->
  Job.daily_time trigger_time = Raise ScheduleValueError ->
  schedule_reminder (PStr name) (PStr trigger_time) task (PStr "days") st
  = (Raise RuntimeError, set_next_jid (S (next_jid st)) st).
Proof.
  intros Hname Htrig Htask Htime.
  rewrite (schedule_reminder_checked name trigger_time "days" task f) by done.
  unfold schedule_try. cbn -[every_day_at]. unfold every_day_at, Job.at_daily.
  cbn -[Job.daily_time]. by rewrite Htime.
Qed.

Lemma schedule_reminder_daily_refused_witness :
  schedule_reminder (PStr "backup") (PStr "9:30") PNone (PStr "days") (init morning)
  = (Raise RuntimeError, set_next_jid 1 (init morning))
  /\ schedule_reminder (PStr "backup") (PStr "24:00") PNone (PStr "days") (init morning)
     = (Raise RuntimeError, set_next_jid 1 (init morning)).
Proof.
  split.
  - apply (schedule_reminder_daily_refused "backup" "9:30" PNone
             (default_task "backup") (init morning)); done.
  - by apply (schedule_reminder_daily_refused "backup" "24:00" PNone
                (default_task "backup") (init morning)).
Defined.

(** X5.  A job registered for every [n] hours, minutes or seconds is first
    due exactly [n] units after the registration, not at once: it has not
    run yet and is not due at any earlier time. *)
Theorem schedule_reminder_interval_first_due (name trigger_time : string)
    (task : pyval) (f : callable) (u : time_unit) (n : Z) (st : State) :
  name <> "" -> task_of name task = Some f ->
  u <> Days ->
  Py.int trigger_time = Some n -> 0 < n ->
  datetime.in_range (clock st) = true ->
  datetime.in_range (clock st + n * unit_us u) = true ->
  exists job st',
    schedule_reminder (PStr name) (PStr trigger_time) task (PStr (unit_name u)) st
    = (Ok job, st')
    /\ Job.next_run job = Some (clock st + n * unit_us u)
    /\ Job.last_run job = None
    /\ forall t, t < clock st + n * unit_us u -> Job.should_run t job = Ok false.
Proof.
  intros Hname Htask Hu Hint Hpos Hnow Hnext.
  assert (Htrig : trigger_time <> "") by (by intros ->).
  rewrite (schedule_reminder_checked name trigger_time (unit_name u) task f)
    by (try done; by destruct u).
  pose proof (first_run_interval (clock st)
                (Job.set_job_func f (Job.set_unit u (Job.init (next_jid st) n))) u
                eq_refl eq_refl Hpos Hnow Hnext) as Hrun.
  destruct (schedule_try_interval_ok name trigger_time f u n st _ Hu Hint Hrun)
    as (st' & -> & _).
  eexists _, st'. split; [reflexivity|]. split; [done|]. split; [done|].
  intros t Ht. unfold Job.should_run. cbn. f_equal.
  rewrite Z.geb_leb. apply Z.leb_gt. lia.
Qed.

Lemma schedule_reminder_interval_first_due_witness :
  exists job st',
    schedule_reminder (PStr "backup") (PStr "2") PNone (PStr "hours") (init morning)
    = (Ok job, st')
    /\ Job.next_run job = Some (morning + 2 * datetime.us_per_hour)
    /\ Job.last_run job = None
    /\ forall t, t < morning + 2 * datetime.us_per_hour ->
                 Job.should_run t job = Ok false.
Proof.
  apply (schedule_reminder_interval_first_due "backup" "2" PNone
           (default_task "backup") Hours 2 (init morning)); done.
Defined.

(** The next due time of a daily job, at its registration or after a run at
    [now]: the first occurrence of its time of day after [now]. *)
Lemma next_run_daily (now : Z) (j : Job.t) (tm : datetime.time) :
  Job.unit_ j = Some Days -> Job.at_time j = Some tm ->
  Job.interval j = 1 ->
  Job.last_run j = None \/ Job.last_run j = Some now ->
  0 <= datetime.hour tm <= 23 -> 0 <= datetime.minute tm <= 59 ->
  0 <= datetime.second tm <= 59 ->
  datetime.in_range now = true ->
  datetime.in_range (now + datetime.us_per_day) = true ->
  exists nr,
    Job._schedule_next_run now j = Ok (Job.set_next_run nr j)
    /\ now < nr <= now + datetime.us_per_day
    /\ datetime.time_of nr = datetime.time_us tm.
Proof.
  intros Hu Hat Hint Hlast Hh Hm Hs Hnow Hnext. unfold Job._schedule_next_run.
  rewrite Hu, Hat, Hint. apply in_range_bounds in Hnow.
  pose proof (proj1 (in_range_bounds _) Hnext) as Hb.
  cbn [unit_us]. rewrite Z.mul_1_l.
  rewrite timedelta_ok by (unfold datetime.max_days, datetime.us_per_day,
    datetime.us_per_hour, datetime.us_per_minute, datetime.us_per_second; lia).
  unfold mbind, result_bind. cbn beta iota.
  unfold datetime.add at 1. rewrite Hnext.
  unfold datetime.replace, default, id. cbn beta iota.
  change (1 =? 1)%positive with true. rewrite andb_true_r.
  rewrite time_of_next_day.
  pose proof (time_of_bounds now) as Htod.
  assert (Hq : now = datetime.us_per_day * (now / datetime.us_per_day)
                     + datetime.time_of now).
  { unfold datetime.time_of. by apply Z.div_mod. }
  set (tod := datetime.time_of now) in *.
  set (q := now / datetime.us_per_day) in *.
  fold (datetime.time_us tm).
  set (at_us := datetime.time_us tm).
  assert (0 <= at_us < datetime.us_per_day) as Hat_us.
  { unfold at_us, datetime.time_us, datetime.us_per_day, datetime.us_per_hour,
      datetime.us_per_minute, datetime.us_per_second. lia. }
  assert (Hmod : forall k, datetime.time_of (at_us + k * datetime.us_per_day) = at_us).
  { intros k. unfold datetime.time_of. rewrite Z.mod_add by done.
    by apply Z.mod_small. }
  assert (Hday : datetime.us_per_day = 86400000000) by reflexivity.
  replace (now + datetime.us_per_day - tod
           + datetime.hour tm * datetime.us_per_hour
           + datetime.minute tm * datetime.us_per_minute
           + datetime.second tm * datetime.us_per_second)
    with (now + datetime.us_per_day - tod + at_us)
    by (unfold at_us, datetime.time_us; lia).
  assert (Hcatch : match Job.last_run j with
                   | Some lr =>
                       now + datetime.us_per_day - tod + at_us - lr
                       >? datetime.us_per_day
                   | None => true
                   end = true \/ at_us <= tod).
  { destruct Hlast as [->| ->]; [by left|].
    destruct (_ >? _) eqn:E; [by left|]. right.
    rewrite Z.gtb_ltb in E. apply Z.ltb_ge in E. lia. }
  destruct (at_us >? tod) eqn:Hcmp.
  - apply Z.gtb_lt in Hcmp. destruct Hcatch as [-> | ?]; [|lia]. cbn [negb].
    unfold datetime.sub, datetime.add.
    rewrite (proj2 (in_range_bounds _)) by lia.
    eexists. split; [reflexivity|]. split; [lia|].
    replace (now + datetime.us_per_day - tod + at_us + - datetime.us_per_day)
      with (at_us + q * datetime.us_per_day) by lia.
    apply Hmod.
  - assert (at_us <= tod) by (rewrite Z.gtb_ltb in Hcmp; by apply Z.ltb_ge in Hcmp).
    exists (now + datetime.us_per_day - tod + at_us).
    split; [by destruct (match Job.last_run j with Some _ => _ | None => _ end)|].
    split; [lia|].
    replace (now + datetime.us_per_day - tod + at_us)
      with (at_us + (q + 1) * datetime.us_per_day) by lia.
    apply Hmod.
Qed.

(** X6.  A daily job registered for HH:MM is first due at the first
    occurrence of that time of day after the registration: later than the
    call, at most a day later, at HH:MM:00 sharp. *)
Theorem schedule_reminder_daily_first_due (name : string) (task : pyval)
    (f : callable) (h m : nat) (st : State) :
  name <> "" -> task_of name task = Some f ->
  (h < 24)%nat -> (m < 60)%nat ->
  datetime.in_range (clock st) = true ->
  datetime.in_range (clock st + datetime.us_per_day) = true ->
  exists job st' nr,
    schedule_reminder (PStr name) (PStr (hhmm h m)) task (PStr "days") st
    = (Ok job, st')
    /\ Job.next_run job = Some nr
    /\ clock st < nr <= clock st + datetime.us_per_day
    /\ datetime.time_of nr
       = (Z.of_nat h * 60 + Z.of_nat m) * datetime.us_per_minute.
Proof.
  intros Hname Htask Hh Hm Hnow Hnext.
  rewrite (schedule_reminder_checked name (hhmm h m) "days" task f) by done.
  destruct (next_run_daily (clock st)
              (Job.set_job_func f
                 (Job.set_at_time (datetime.mkTime (Z.of_nat h) (Z.of_nat m) 0)
                    (Job.set_unit Days (Job.init (next_jid st) 1))))
              (datetime.mkTime (Z.of_nat h) (Z.of_nat m) 0))
    as (nr & Hrun & Hlt & Htod); try done;
    try (by left); try (cbn [datetime.hour datetime.minute datetime.second]; lia).
  destruct (schedule_try_daily_ok name (hhmm h m) f _ st _
              (daily_time_hhmm h m Hh Hm) Hrun) as (st' & -> & _).
  eexists _, st', nr. split; [reflexivity|]. split; [done|]. split; [done|].
  rewrite Htod. unfold datetime.time_us, datetime.us_per_hour. cbn. lia.
Qed.

Lemma schedule_reminder_daily_first_due_witness :
  exists job st' nr,
    schedule_reminder (PStr "backup") (PStr "08:00") PNone (PStr "days")
      (init morning) = (Ok job, st')
    /\ Job.next_run job = Some nr
    /\ morning < nr <= morning + datetime.us_per_day
    /\ datetime.time_of nr = (8 * 60 + 0) * datetime.us_per_minute.
Proof.
  apply (schedule_reminder_daily_first_due "backup" PNone (default_task "backup")
           8 0 (init morning)); try done; lia.
Defined.

(** *** One poll *)



Lemma run_job_same_threads (j : Job.t) (st : State) :
  same_threads st (Scheduler._run_job j st).2.
Proof.
  unfold Scheduler._run_job.
  destruct (Job.job_func j) as [g|];
    destruct (Job.run (clock st) j) as [[cancel|e] j'];
    try destruct cancel; by repeat split.
Qed.





(** *** The loop: when it goes on and when it ends *)

Lemma set_clock_same (st : State) : set_clock (clock st) st = st.
Proof. by destruct st. Qed.

(** With nothing registered and a sleep that does not fail, the loop runs
    for as many turns as it is given and only sleeps. *)
Lemma run_loop_idle (fuel : nat) (interval : Z) (st : State) :
  is_running st = true -> jobs st = [] -> 0 <= interval ->
  _run_loop fuel interval st
  = (None,
     set_clock (clock st + Z.of_nat fuel * (interval * datetime.us_per_second)) st).
Proof.
  intros Hrun Hjobs Hint. revert st Hrun Hjobs.
  induction fuel as [|fuel IH]; intros st Hrun Hjobs.
  - cbn. by rewrite Z.add_0_r, set_clock_same.
  - cbn [_run_loop]. unfold loop_turn, Scheduler.run_pending, sleep.
    rewrite Hrun, Hjobs. cbn. rewrite (proj2 (Z.ltb_ge _ _)) by done. cbn.
    rewrite IH by done. f_equal. destruct st; cbn. unfold set_clock; cbn.
    f_equal. lia.
Qed.



Lemma run_each_frame (js : list Job.t) (st : State) :
  clock (Scheduler.run_each js st).2 = clock st
  /\ is_running (Scheduler.run_each js st).2 = is_running st
  /\ same_threads st (Scheduler.run_each js st).2.
Proof.
  revert st. induction js as [|j js IH]; intros st; [by repeat split|].
  cbn [Scheduler.run_each].
  pose proof (run_job_frame j st) as [Hclock Hrun].
  pose proof (run_job_same_threads j st) as (H1 & H2 & H3 & H4).
  destruct (Scheduler._run_job j st) as [[[]|e] st1]; cbn in *.
  - destruct (IH st1) as (Hc & Hr & H1' & H2' & H3' & H4').
    repeat split; congruence.
  - by repeat split.
Qed.

Lemma run_each_raise_class (js : list Job.t) (st : State) (e : exc) :
  (forall k g e', k ∈ js -> Job.job_func k = Some g ->
                  g (clock st) = Raises e' -> is_Exception e' = true) ->
  (Scheduler.run_each js st).1 = Raise e -> is_Exception e = true.
Proof.
  revert st. induction js as [|j js IH]; intros st Hcls; [done|].
  cbn [Scheduler.run_each].
  pose proof (run_job_frame j st) as [Hclock _].
  destruct (Scheduler._run_job j st) as [[[]|e0] st1] eqn:Hj; cbn in Hclock.
  - apply IH. intros k g e' Hk Hg He. rewrite Hclock in He.
    eapply Hcls; [by apply list_elem_of_further | done | done].
  - cbn. intros [= <-]. apply (run_job_raise_class j e0 st).
    + intros g e' Hg He. eapply Hcls; [apply list_elem_of_here | done | done].
    + by rewrite Hj.
Qed.

(** A poll leaves the clock, the flag and the threads alone, and what it
    raises derives from [Exception] when what the job functions raise
    does. *)
Lemma run_pending_frame (st : State) :
  clock (Scheduler.run_pending st).2 = clock st
  /\ is_running (Scheduler.run_pending st).2 = is_running st
  /\ same_threads st (Scheduler.run_pending st).2.
Proof.
  unfold Scheduler.run_pending.
  destruct (Scheduler.runnable_jobs _ _); [apply run_each_frame | by repeat split].
Qed.

Lemma run_pending_raise_class (st : State) (e : exc) :
  (forall k g e', k ∈ jobs st -> Job.job_func k = Some g ->
                  g (clock st) = Raises e' -> is_Exception e' = true) ->
  (Scheduler.run_pending st).1 = Raise e -> is_Exception e = true.
Proof.
  intros Hcls. unfold Scheduler.run_pending.
  destruct (Scheduler.runnable_jobs _ _) as [due|e0] eqn:Hdue.
  - apply run_each_raise_class. intros k g e' Hk.
    apply elem_of_sorted, (runnable_jobs_spec _ _ _ Hdue) in Hk as [Hk _].
    by apply Hcls.
  - cbn. intros [= <-]. by eapply runnable_jobs_raises_Exception.
Qed.

(** X9.  With a negative interval the loop ends in its first turn:
    [time.sleep] raises [ValueError], the clause around the loop catches it
    and clears the flag.  (Job functions that are due are still called in
    that turn; what they raise is taken to derive from [Exception].) *)
Theorem run_loop_negative_interval (interval : Z) (fuel : nat) (st : State) :
  is_running st = true -> interval < 0 ->
  (forall k g e', k ∈ jobs st -> Job.job_func k = Some g ->
                  g (clock st) = Raises e' -> is_Exception e' = true) ->
  exists st',
    _run_loop (S fuel) interval st = (Some (Ok tt), st')
    /\ is_running st' = false
    /\ clock st' = clock st.
Proof.
  intros Hrun Hint Hcls. cbn [_run_loop]. unfold loop_turn. rewrite Hrun. cbn [negb].
  pose proof (run_pending_frame st) as (Hclock & _ & _).
  pose proof (run_pending_raise_class st) as Hraise.
  destruct (Scheduler.run_pending st) as [[[]|e] st1]; cbn in Hclock, Hraise.
  - unfold sleep. rewrite (proj2 (Z.ltb_lt _ _)) by done. cbn.
    eexists. by repeat split.
  - rewrite (Hraise e Hcls eq_refl). eexists. by repeat split.
Qed.

Lemma run_loop_negative_interval_witness :
  exists st',
    _run_loop 1 (-1) (set_is_running true one_job) = (Some (Ok tt), st')
    /\ is_running st' = false
    /\ clock st' = morning.
Proof.
  apply (run_loop_negative_interval (-1) 0 (set_is_running true one_job)).
  - reflexivity.
  - lia.
  - intros k g e' Hk Hg He. vm_compute in Hk.
    apply list_elem_of_singleton in Hk. subst k. injection Hg as <-. done.
Defined.

Lemma loop_turn_return_stopped (interval : Z) (st st' : State) :
  loop_turn interval st = (Return, st') -> is_running st' = false.
Proof.
  unfold loop_turn. destruct (is_running st) eqn:Hrun; cbn.
  - destruct (Scheduler.run_pending st) as [[[]|e] st1].
    + unfold sleep. destruct (interval <? 0); cbn; [by intros [= <-] | done].
    + destruct (is_Exception e); [by intros [= <-] | done].
  - by intros [= <-].
Qed.

Lemma loop_turn_same_threads (interval : Z) (st : State) :
  same_threads st (loop_turn interval st).2.
Proof.
  unfold loop_turn. destruct (is_running st); [|by repeat split]. cbn.
  pose proof (run_pending_frame st) as (_ & _ & Hth).
  destruct (Scheduler.run_pending st) as [[[]|e] st1]; cbn in Hth.
  - unfold sleep. by destruct (interval <? 0).
  - by destruct (is_Exception e).
Qed.

Lemma run_loop_returns (fuel : nat) (interval : Z) (st st' : State) :
  _run_loop fuel interval st = (Some (Ok tt), st') ->
  is_running st' = false /\ same_threads st st'.
Proof.
  revert st. induction fuel as [|fuel IH]; intros st; [done|]. cbn [_run_loop].
  pose proof (loop_turn_same_threads interval st) as (H1 & H2 & H3 & H4).
  destruct (loop_turn interval st) as [[| |e] st1] eqn:Hturn; cbn in *.
  - intros H. destruct (IH st1 H) as (Hr & H1' & H2' & H3' & H4').
    split; [done|]. repeat split; congruence.
  - intros [= <-]. split; [by eapply loop_turn_return_stopped | by repeat split].
  - done.
Qed.

(** X10.  When [run(background=False)] returns, the scheduler is no longer
    running: the loop ends only with the flag cleared.  The call created no
    thread and registered the exit hook once. *)
Theorem run_blocking_returns_stopped (interval : Z) (fuel : nat) (st st' : State) :
  is_running st = false ->
  run false interval fuel st = (Some (Ok tt), st') ->
  is_running st' = false
  /\ threads st' = threads st
  /\ scheduler_thread st' = scheduler_thread st
  /\ atexit st' = S (atexit st).
Proof.
  intros Hrun. unfold run. rewrite Hrun.
  destruct (_run_loop fuel interval (set_is_running true st)) as [[[[]|e]|] st1] eqn:E;
    try done.
  intros [= <-]. apply run_loop_returns in E as (Hr & H1 & H2 & H3 & _).
  cbn in *. by repeat split; try congruence.
Qed.

Lemma run_blocking_returns_stopped_witness :
  is_running (run false (-1) 1 (init morning)).2 = false
  /\ threads (run false (-1) 1 (init morning)).2 = threads (init morning)
  /\ scheduler_thread (run false (-1) 1 (init morning)).2
     = scheduler_thread (init morning)
  /\ atexit (run false (-1) 1 (init morning)).2 = S (atexit (init morning)).
Proof.
  apply (run_blocking_returns_stopped (-1) 1 (init morning)); reflexivity.
Defined.

(** *** Stopping, restarting, clearing *)




(** X12.  When the wait of [stop] for the loop thread times out and [run]
    starts the scheduler again, the old thread is still alive beside the new
    one and the flag it tests is set again: two loops are active. *)
Theorem restart_after_timeout (tid : nat) (interval : Z) (fuel : nat) (st : State) :
  is_running st = true ->
  scheduler_thread st = Some tid ->
  is_alive tid st = true ->
  let st' := (run true interval fuel (stop false st).2).2 in
  is_running st' = true
  /\ is_alive tid st' = true
  /\ is_alive (List.length (threads st)) st' = true
  /\ tid <> List.length (threads st)
  /\ active_loops st' = S (active_loops st).
Proof.
  intros Hrun Hth Halive st'. subst st'.
  unfold stop. rewrite Hrun. cbn. rewrite Hth.
  replace (is_alive tid (set_is_running false st)) with true by done.
  unfold join, run. cbn.
  assert (Hlt : (tid < List.length (threads st))%nat).
  { unfold is_alive in Halive. destruct (threads st !! tid) eqn:E; [|done].
    by eapply lookup_lt_Some. }
  split; [done|]. unfold is_alive in *. cbn. split.
  - by rewrite lookup_app_l.
  - split; [by rewrite list_lookup_middle|]. split; [lia|].
    unfold active_loops. cbn. apply active_loops_start.
Qed.

Lemma restart_after_timeout_witness :
  let st' := (run true 60 0 (stop false started_twice).2).2 in
  is_running st' = true
  /\ is_alive 0 st' = true
  /\ is_alive (List.length (threads started_twice)) st' = true
  /\ 0%nat <> List.length (threads started_twice)
  /\ active_loops st' = S (active_loops started_twice).
Proof.
  apply (restart_after_timeout 0 60 0 started_twice); reflexivity.
Defined.

(** X13.  [clear_all] empties the registry and leaves the lifecycle alone:
    the listing is empty, every removal reports that nothing was found, the
    flag and the threads are as before, and the loop, however long it goes
    on, calls no job. *)
Theorem clear_all_idle (st : State) :
  get_pending_tasks (clear_all st) = []
  /\ (forall name, remove_task name (clear_all st) = (false, clear_all st))
  /\ is_running (clear_all st) = is_running st
  /\ threads (clear_all st) = threads st
  /\ (forall interval fuel,
        0 <= interval ->
        calls (_run_loop fuel interval (clear_all st)).2 = calls st).
Proof.
  split; [done|]. split; [done|]. split; [done|]. split; [done|].
  intros interval fuel Hint. destruct (is_running st) eqn:Hrun.
  - by rewrite run_loop_idle.
  - destruct fuel as [|fuel]; [done|]. cbn [_run_loop]. unfold loop_turn.
    replace (is_running (clear_all st)) with false by done. done.
Qed.

Lemma clear_all_idle_witness :
  calls (_run_loop 5 1 (clear_all flaky_due)).2 = calls flaky_due.
Proof.
  apply (proj2 (proj2 (proj2 (proj2 (clear_all_idle flaky_due)))) 1 5%nat). lia.
Defined.

(** X14.  Removing the same name twice: the second call finds nothing,
    returns false and changes nothing. *)
Theorem remove_task_twice (name : string) (st : State) :
  remove_task name (remove_task name st).2 = (false, (remove_task name st).2).
Proof.
  unfold remove_task, Scheduler.clear. cbn -[Nat.ltb].
  rewrite (filter_all_id (fun j => name ∉ Job.tags j)
             (filter (fun j => name ∉ Job.tags j) (jobs st))).
  - by rewrite Nat.ltb_irrefl.
  - apply Forall_forall. intros j Hj. by apply list_elem_of_filter in Hj as [Hj _].
Qed.

(** *** The daily email summary *)

(** X15.  [schedule_email_summary] with a time HH:MM registers a daily job
    under the name "Daily Email Summary", and that job contains the failures
    of [summarize_emails]: whenever the job runs while [summarize_emails]
    raises an [Exception], the run returns as usual, [last_run] is the time
    of the run and the next due time lies within the following day.  Such a
    failure does not reach the loop. *)
Theorem schedule_email_summary_contains_failures (summarize_emails : callable)
    (h m : nat) (st : State) :
  (h < 24)%nat -> (m < 60)%nat ->
  datetime.in_range (clock st) = true ->
  datetime.in_range (clock st + datetime.us_per_day) = true ->
  exists job st',
    schedule_email_summary summarize_emails (PStr (hhmm h m)) st = (Ok job, st')
    /\ job ∈ jobs st'
    /\ Job.tags job = {[ "Daily Email Summary" ]}
    /\ forall now e,
         summarize_emails now = Raises e -> is_Exception e = true ->
         datetime.in_range now = true ->
         datetime.in_range (now + datetime.us_per_day) = true ->
         exists nr,
           Job.run now job
           = (Ok false, Job.set_next_run nr (Job.set_last_run now job))
           /\ now < nr <= now + datetime.us_per_day.
Proof.
  intros Hh Hm Hnow Hnext. unfold schedule_email_summary.
  set (f := email_summary_task summarize_emails).
  set (tm := datetime.mkTime (Z.of_nat h) (Z.of_nat m) 0).
  rewrite (schedule_reminder_checked "Daily Email Summary" (hhmm h m) "days"
             (PCallable f) f) by done.
  destruct (next_run_daily (clock st)
              (Job.set_job_func f
                 (Job.set_at_time tm (Job.set_unit Days (Job.init (next_jid st) 1))))
              tm)
    as (nr0 & Hrun0 & _ & _); try done;
    try (by left); try (cbn [tm datetime.hour datetime.minute datetime.second]; lia).
  destruct (schedule_try_daily_ok "Daily Email Summary" (hhmm h m) f _ st _
              (daily_time_hhmm h m Hh Hm) Hrun0) as (st' & -> & Hin).
  eexists _, st'. split; [reflexivity|]. split; [done|].
  split; [cbn; by rewrite (left_id_L ∅ (∪))|].
  intros now e He Hexc Hnow' Hnext'.
  set (job := Job.tag "Daily Email Summary" _).
  destruct (next_run_daily now (Job.set_last_run now job) tm)
    as (nr & Hrun & Hlt & _); try done;
    try (by right); try (cbn [tm datetime.hour datetime.minute datetime.second]; lia).
  exists nr. split; [|done].
  unfold Job.run. cbn [job Job.job_func Job.tag Job.set_tags Job.set_next_run
                       Job.set_job_func].
  unfold f at 1, email_summary_task. rewrite He, Hexc. by rewrite Hrun.
Qed.

Lemma schedule_email_summary_contains_failures_witness :
  exists job st',
    schedule_email_summary failing_task (PStr "08:00") (init morning) = (Ok job, st')
    /\ job ∈ jobs st'
    /\ Job.tags job = {[ "Daily Email Summary" ]}
    /\ forall now e,
         failing_task now = Raises e -> is_Exception e = true ->
         datetime.in_range now = true ->
         datetime.in_range (now + datetime.us_per_day) = true ->
         exists nr,
           Job.run now job
           = (Ok false, Job.set_next_run nr (Job.set_last_run now job))
           /\ now < nr <= now + datetime.us_per_day.
Proof.
  apply (schedule_email_summary_contains_failures failing_task 8 0 (init morning));
    try done; lia.
Defined.

(** *** The assistant *)

Lemma schedule_reminder_raises_Exception (task_name trigger_time task unit : pyval)
    (st st' : State) (e : exc) :
  schedule_reminder task_name trigger_time task unit st = (Raise e, st') ->
  is_Exception e = true.
Proof.
  unfold schedule_reminder.
  destruct (negb (truthy task_name) || _); [by intros [= <- _]|].
  destruct (negb (truthy trigger_time) || _); [by intros [= <- _]|].
  destruct (negb (in_str_list unit units)); [by intros [= <- _]|].
  assert (Hgo : forall f,
    match schedule_try (str_of task_name) (str_of trigger_time) f unit st with
    | (Ok job, st1) => (Ok job, st1)
    | (Raise e0, st1) =>
        if is_ValueError e0 then (Raise ValueError, st1)
        else if is_Exception e0 then (Raise RuntimeError, st1) else (Raise e0, st1)
    end = (Raise e, st') -> is_Exception e = true).
  { intros f. destruct (schedule_try _ _ f unit st) as [[j|e0] st1] eqn:E; [done|].
    apply schedule_try_raises_Exception in E. rewrite E.
    by destruct (is_ValueError e0); intros [= <- _]. }
  destruct task as [|?|?|f|?]; try (by intros [= <- _]); apply Hgo.
Qed.

(** X16.  [schedule_custom_task] and [schedule_email_reminder] of the
    assistant return [None] exactly when the registration succeeds and raise
    [RuntimeError], never another class, whenever it fails, also on an empty
    name or an unknown unit; the scheduler is left as the registration
    leaves it. *)
Theorem assistant_scheduling_errors (task_name trigger_time task unit : pyval)
    (summarize_emails : callable) (st : State) :
  let custom := PersonalAssistant.schedule_custom_task task_name trigger_time task unit st in
  let registration := schedule_reminder task_name trigger_time task unit st in
  let email := PersonalAssistant.schedule_email_reminder summarize_emails trigger_time st in
  let summary := schedule_email_summary summarize_emails trigger_time st in
  custom.2 = registration.2
  /\ match registration.1 with
     | Ok _ => custom.1 = Ok tt
     | Raise _ => custom.1 = Raise RuntimeError
     end
  /\ email.2 = summary.2
  /\ match summary.1 with
     | Ok _ => email.1 = Ok tt
     | Raise _ => email.1 = Raise RuntimeError
     end.
Proof.
  cbn zeta. unfold PersonalAssistant.schedule_custom_task,
    PersonalAssistant.schedule_email_reminder, schedule_email_summary.
  assert (Hwrap : forall a b c d,
    (let '(r, st') := schedule_reminder a b c d st in
     (PersonalAssistant.or_runtime_error r, st')).2
    = (schedule_reminder a b c d st).2
    /\ match (schedule_reminder a b c d st).1 with
       | Ok _ =>
           (let '(r, st') := schedule_reminder a b c d st in
            (PersonalAssistant.or_runtime_error r, st')).1 = Ok tt
       | Raise _ =>
           (let '(r, st') := schedule_reminder a b c d st in
            (PersonalAssistant.or_runtime_error r, st')).1 = Raise RuntimeError
       end).
  { intros a b c d.
    destruct (schedule_reminder a b c d st) as [[job|e] st'] eqn:E; cbn; [done|].
    by rewrite (schedule_reminder_raises_Exception _ _ _ _ _ _ _ E). }
  destruct (Hwrap task_name trigger_time task unit) as [H1 H2].
  destruct (Hwrap (PStr "Daily Email Summary") trigger_time
              (PCallable (email_summary_task summarize_emails)) (PStr "days"))
    as [H3 H4].
  done.
Qed.

(** X17.  What [status] reports follows the registry.  After a successful
    [schedule_custom_task] the report lists one task more, the new entry is
    last and is the one-element set of the task's name; after a failed one
    the report is the one before the call.  [running] is as before in both
    cases. *)
Theorem status_after_schedule_custom_task (task_name trigger_time task unit : pyval)
    (st : State) :
  wf st ->
  let r := PersonalAssistant.schedule_custom_task task_name trigger_time task unit st in
  match r.1 with
  | Ok _ =>
      exists name,
        task_name = PStr name
        /\ PersonalAssistant.task_names (PersonalAssistant.status r.2)
           = PersonalAssistant.task_names (PersonalAssistant.status st)
             ++ [PSet {[ name ]}]
        /\ PersonalAssistant.pending_tasks (PersonalAssistant.status r.2)
           = S (PersonalAssistant.pending_tasks (PersonalAssistant.status st))
        /\ PersonalAssistant.running (PersonalAssistant.status r.2)
           = PersonalAssistant.running (PersonalAssistant.status st)
  | Raise _ => PersonalAssistant.status r.2 = PersonalAssistant.status st
  end.
Proof.
  intros Hwf. cbn zeta. unfold PersonalAssistant.schedule_custom_task.
  destruct (schedule_reminder task_name trigger_time task unit st)
    as [[job|e] st'] eqn:E.
  - destruct (schedule_reminder_ok_state _ _ _ _ _ _ _ Hwf E)
      as (-> & _ & name & -> & Htags).
    cbn. exists name. split; [done|].
    unfold PersonalAssistant.status, PersonalAssistant.get_pending_tasks,
      get_pending_tasks. cbn.
    rewrite !length_map, map_app, length_app. cbn. rewrite Htags.
    split; [done|]. split; [lia|done].
  - destruct (schedule_reminder_raise_state _ _ _ _ _ _ _ Hwf E) as [->| ->];
      cbn; destruct (is_Exception e); reflexivity.
Qed.

Lemma status_after_schedule_custom_task_witness :
  exists name,
    PStr "backup" = PStr name
    /\ PersonalAssistant.task_names (PersonalAssistant.status two_jobs)
       = PersonalAssistant.task_names (PersonalAssistant.status one_job)
         ++ [PSet {[ name ]}]
    /\ PersonalAssistant.pending_tasks (PersonalAssistant.status two_jobs)
       = S (PersonalAssistant.pending_tasks (PersonalAssistant.status one_job))
    /\ PersonalAssistant.running (PersonalAssistant.status two_jobs)
       = PersonalAssistant.running (PersonalAssistant.status one_job).
Proof.
  apply (status_after_schedule_custom_task (PStr "backup") (PStr "3") PNone
           (PStr "hours") one_job).
  apply (wf_schedule_reminder _ _ _ _ (init morning)), wf_init.
Defined.


